(** * Brocklayers: the perimeter-block rewriter of [brocklayers.py]

    A shallow embedding of [calculate_layer_settings] and of the line loop
    of [process_gcode], followed by the properties of the rewriter.

    Conventions of the model.
    - A Python [str] is a [string]; a character is a code point below 256.
    - A Python [float] is an IEEE 754 binary64 number, [spec_float] with
      [prec = 53] and [emax = 1024], rounded to nearest, ties to even.
    - A Python [int] is a [Z].
    - An exception that escapes [process_gcode] is a value [Raise e]. *)

From Stdlib Require Import ZArith List String Ascii Bool Lia.
From Stdlib Require Import DecimalString.
From Stdlib Require Import Floats.SpecFloat.
Import ListNotations.

Local Open Scope string_scope.
Local Open Scope Z_scope.

(** ** Exceptions *)

Inductive exn : Type :=
| ValueError
| ZeroDivisionError
| OverflowError.

Inductive result (A : Type) : Type :=
| Return (a : A)
| Raise (e : exn).

Arguments Return {A} a.
Arguments Raise {A} e.

Definition bind {A B : Type} (r : result A) (k : A -> result B) : result B :=
  match r with
  | Return a => k a
  | Raise e => Raise e
  end.

Notation "'do' x <- r ;; k" := (bind r (fun x => k))
  (at level 10, x name, r at level 100, k at level 200).

(** ** Floating point numbers *)

Module PyFloat.

Definition float : Type := spec_float.

Definition prec : Z := 53.
Definition emax : Z := 1024.

Definition add : float -> float -> float := SFadd prec emax.
Definition mul : float -> float -> float := SFmul prec emax.

(** [x / y]: Python raises on a zero divisor before it divides. *)
Definition div (x y : float) : result float :=
  match y with
  | S754_zero _ => Raise ZeroDivisionError
  | _ => Return (SFdiv prec emax x y)
  end.

(** The binary64 number nearest to [(-1)^neg * n / d], for [0 <= n], [0 < d]. *)
Definition of_ratio (neg : bool) (n d : Z) : float :=
  match n with
  | Zpos p => SFdiv prec emax (S754_finite neg p 0) (S754_finite false (Z.to_pos d) 0)
  | _ => S754_zero neg
  end.

Definition digit_val (c : ascii) : option Z :=
  let n := Z.of_N (N_of_ascii c) in
  if (48 <=? n) && (n <=? 57) then Some (n - 48) else None.

(** Reads digits with at most one point: the digits as a number, the count of
    digits after the point and the count of all digits. *)
Fixpoint scan_dec (s : string) (point : bool) (m k nd : Z) : option (Z * Z * Z) :=
  match s with
  | EmptyString => Some (m, k, nd)
  | String c s' =>
      if Ascii.eqb c "." then
        if point then None else scan_dec s' true m k nd
      else
        match digit_val c with
        | Some d => scan_dec s' point (10 * m + d) (if point then k + 1 else k) (nd + 1)
        | None => None
        end
  end.

(** [float(s)] for the strings the patterns of [process_gcode] capture, made
    of ["-"], ["."] and digits: an optional sign, then digits with at most one
    point and at least one digit. [None] is Python's [ValueError]. *)
Definition of_string (s : string) : option float :=
  let '(neg, body) :=
    match s with
    | String c r => if Ascii.eqb c "-" then (true, r) else (false, s)
    | EmptyString => (false, s)
    end in
  match scan_dec body false 0 0 0 with
  | Some (m, k, nd) => if nd =? 0 then None else Some (of_ratio neg m (10 ^ k))
  | None => None
  end.

(** [int(x)]: truncation towards zero. *)
Definition trunc (x : float) : result Z :=
  match x with
  | S754_nan => Raise ValueError
  | S754_infinity _ => Raise OverflowError
  | S754_zero _ => Return 0
  | S754_finite s m e =>
      Return (cond_Zopp s (if 0 <=? e then Zpos m * 2 ^ e else Zpos m / 2 ^ (- e)))
  end.

(** [math.floor(x)], for comparison with [trunc]. *)
Definition floor (x : float) : result Z :=
  match x with
  | S754_nan => Raise ValueError
  | S754_infinity _ => Raise OverflowError
  | S754_zero _ => Return 0
  | S754_finite s m e =>
      Return (if 0 <=? e then cond_Zopp s (Zpos m) * 2 ^ e
              else cond_Zopp s (Zpos m) / 2 ^ (- e))
  end.

(** The sign bit is clear. *)
Definition nonneg (x : float) : bool :=
  match x with
  | S754_zero s | S754_infinity s | S754_finite s _ _ => negb s
  | S754_nan => true
  end.

(** The integer nearest to [n / d], ties to even, for [0 <= n] and [0 < d]. *)
Definition round_half_even (n d : Z) : Z :=
  let q := n / d in
  let r := n mod d in
  match 2 * r ?= d with
  | Lt => q
  | Eq => if Z.even q then q else q + 1
  | Gt => q + 1
  end.

Definition dec_string (n : Z) : string :=
  NilZero.string_of_uint (N.to_uint (Z.to_N n)).

Fixpoint zeros (n : nat) : string :=
  match n with
  | O => EmptyString
  | S n' => String "0" (zeros n')
  end.

(** [n] taken as a count of [10^-d]: the integer part, a point, [d] digits. *)
Definition fixed_digits (d : nat) (n : Z) : string :=
  let p := 10 ^ Z.of_nat d in
  let frac := dec_string (n mod p) in
  dec_string (n / p) ++
  match d with
  | O => EmptyString
  | _ => "." ++ zeros (d - String.length frac) ++ frac
  end.

Definition sign_string (s : bool) : string := if s then "-" else "".

(** [f"{x:.df}"]: the exact value of [x] rounded to [d] decimals, ties to even. *)
Definition format_f (d : nat) (x : float) : string :=
  match x with
  | S754_nan => "nan"
  | S754_infinity s => sign_string s ++ "inf"
  | S754_zero s => sign_string s ++ fixed_digits d 0
  | S754_finite s m e =>
      let p := 10 ^ Z.of_nat d in
      let n := if 0 <=? e then Zpos m * 2 ^ e * p
               else round_half_even (Zpos m * p) (2 ^ (- e)) in
      sign_string s ++ fixed_digits d n
  end.

(** A float literal of the source text. *)
Definition literal (s : string) : float :=
  match of_string s with
  | Some x => x
  | None => S754_nan
  end.

End PyFloat.

Import PyFloat.

(** ** Strings and the two patterns *)

Module PyStr.

Definition nl : string := String "010" EmptyString.

(** [s.startswith(p)] *)
Definition startswith (s p : string) : bool := String.prefix p s.

(** [p in s] *)
Fixpoint contains (p s : string) : bool :=
  if String.prefix p s then true
  else
    match s with
    | EmptyString => false
    | String _ s' => contains p s'
    end.

(** [str.isspace] on one character. *)
Definition is_space (c : ascii) : bool :=
  let n := N_of_ascii c in
  (((9 <=? n) && (n <=? 13)) || ((28 <=? n) && (n <=? 32))
   || (n =? 133) || (n =? 160))%N.

Fixpoint lstrip (s : string) : string :=
  match s with
  | EmptyString => EmptyString
  | String c s' => if is_space c then lstrip s' else s
  end.

Fixpoint rstrip (s : string) : string :=
  match s with
  | EmptyString => EmptyString
  | String c s' =>
      match rstrip s' with
      | EmptyString => if is_space c then EmptyString else String c EmptyString
      | r => String c r
      end
  end.

(** [s.strip()] *)
Definition strip (s : string) : string := rstrip (lstrip s).

(** [str(n)] *)
Definition str_int (n : Z) : string := NilZero.string_of_int (Z.to_int n).

(** The character class [[-\d.]]. *)
Definition is_num_char (c : ascii) : bool :=
  Ascii.eqb c "-" || Ascii.eqb c "."
  || match digit_val c with Some _ => true | None => false end.

(** The longest prefix of [s] inside the class: what [[-\d.]+] takes. *)
Fixpoint num_run (s : string) : string :=
  match s with
  | EmptyString => EmptyString
  | String c s' => if is_num_char c then String c (num_run s') else EmptyString
  end.

Definition starts_num (s : string) : bool :=
  match s with
  | EmptyString => false
  | String c _ => is_num_char c
  end.

(** [re.search(k + r'([-\d.]+)', s)]: group 1 of the leftmost match. *)
Fixpoint re_search (k : ascii) (s : string) : option string :=
  match s with
  | EmptyString => None
  | String c s' =>
      if Ascii.eqb c k && starts_num s' then Some (num_run s')
      else re_search k s'
  end.

(** [re.sub(k + r'[-\d.]+', repl, s)]: every match, left to right, becomes
    [repl]; [skip] is set while the scan is inside a match. *)
Fixpoint re_sub_from (k : ascii) (repl : string) (skip : bool) (s : string) : string :=
  match s with
  | EmptyString => EmptyString
  | String c s' =>
      if skip && is_num_char c then re_sub_from k repl true s'
      else if Ascii.eqb c k && starts_num s' then repl ++ re_sub_from k repl true s'
      else String c (re_sub_from k repl false s')
  end.

Definition re_sub (k : ascii) (repl s : string) : string := re_sub_from k repl false s.

End PyStr.

Import PyStr.

(** ** The layer setting policy *)

Definition MIN_LAYER_HEIGHT : float := Eval vm_compute in literal "0.15".
Definition MAX_LAYER_HEIGHT : float := Eval vm_compute in literal "0.3".
Definition MIN_LINE_WIDTH : float := Eval vm_compute in literal "0.4".
Definition MAX_LINE_WIDTH : float := Eval vm_compute in literal "0.5".

Record settings : Type := mk_settings {
  layer_height : float;
  line_width : float
}.

Definition calculate_layer_settings (layer_number total_layers : Z) : settings :=
  if layer_number mod 2 =? 0 then
    {| layer_height := MAX_LAYER_HEIGHT; line_width := MIN_LINE_WIDTH |}
  else
    {| layer_height := MIN_LAYER_HEIGHT; line_width := MAX_LINE_WIDTH |}.

(** ** The rewriter *)

Inductive perimeter : Type :=
| external
| internal.

(** The local variables of [process_gcode] that the loop updates;
    [perimeter_type = None] is Python's [None]. *)
Record state : Type := mk_state {
  current_layer : Z;
  current_z : float;
  perimeter_type : option perimeter;
  perimeter_block_count : Z;
  inside_perimeter_block : bool;
  modified_lines : list string
}.

Definition initial : state :=
  {| current_layer := 0;
     current_z := S754_zero false;
     perimeter_type := None;
     perimeter_block_count := 0;
     inside_perimeter_block := false;
     modified_lines := [] |}.

Definition append (st : state) (l : string) : state :=
  {| current_layer := current_layer st;
     current_z := current_z st;
     perimeter_type := perimeter_type st;
     perimeter_block_count := perimeter_block_count st;
     inside_perimeter_block := inside_perimeter_block st;
     modified_lines := modified_lines st ++ [l] |}.

Definition set_type (st : state) (p : option perimeter) : state :=
  {| current_layer := current_layer st;
     current_z := current_z st;
     perimeter_type := p;
     perimeter_block_count := perimeter_block_count st;
     inside_perimeter_block := false;
     modified_lines := modified_lines st |}.

Definition set_inside (st : state) (b : bool) : state :=
  {| current_layer := current_layer st;
     current_z := current_z st;
     perimeter_type := perimeter_type st;
     perimeter_block_count := perimeter_block_count st;
     inside_perimeter_block := b;
     modified_lines := modified_lines st |}.

Definition open_block (st : state) : state :=
  {| current_layer := current_layer st;
     current_z := current_z st;
     perimeter_type := perimeter_type st;
     perimeter_block_count := perimeter_block_count st + 1;
     inside_perimeter_block := true;
     modified_lines := modified_lines st |}.

Definition set_layer (st : state) (z : float) (l : Z) : state :=
  {| current_layer := l;
     current_z := z;
     perimeter_type := perimeter_type st;
     perimeter_block_count := 0;
     inside_perimeter_block := inside_perimeter_block st;
     modified_lines := modified_lines st |}.

(** [float(m.group(1))] *)
Definition float_of (tok : string) : result float :=
  match of_string tok with
  | Some x => Return x
  | None => Raise ValueError
  end.

(** Lines 71 to 80: a layer change. [nominal] is the [layer_height] argument
    of [process_gcode], renamed apart from the ['layer_height'] setting. *)
Definition layer_change (nominal : float) (st : state) (line : string) : result state :=
  match re_search "Z" line with
  | Some tok =>
      do z <- float_of tok ;;
      do q <- div z nominal ;;
      do l <- trunc q ;;
      Return (append (set_layer st z l) line)
  | None => Return (append st line)
  end.

(** Lines 83 to 93: perimeter types from the slicer's comments. *)
Definition detect_type (st : state) (line : string) : state :=
  if contains ";TYPE:External perimeter" line || contains ";TYPE:Outer wall" line then
    set_type st (Some external)
  else if contains ";TYPE:Perimeter" line || contains ";TYPE:Inner wall" line then
    set_type st (Some internal)
  else if contains ";TYPE:" line then
    set_type st None
  else st.

(** The condition of line 96. *)
Definition is_internal (p : option perimeter) : bool :=
  match p with
  | Some internal => true
  | _ => false
  end.

Definition motion (st : state) (line : string) : bool :=
  is_internal (perimeter_type st) && startswith line "G1"
  && contains "X" line && contains "Y" line && contains "E" line.

(** Lines 108 to 114: the Z line of block [n]. *)
Definition z_line (z_shift : float) (ls : settings) (z : float) (n : Z) : string :=
  if n mod 2 =? 1 then
    let adjusted_z := add z (mul z_shift (layer_height ls)) in
    "G1 Z" ++ format_f 3 adjusted_z ++ " ; Shifted Z for block #" ++ str_int n ++ nl
  else
    "G1 Z" ++ format_f 3 z ++ " ; Reset Z for block #" ++ str_int n ++ nl.

Definition e_comment (n : Z) : string :=
  " ; Adjusted E for layer settings, block #" ++ str_int n ++ nl.

(** Lines 117 to 123: the E value of the line. *)
Definition adjust_e (ls : settings) (n : Z) (line : string) : result string :=
  match re_search "E" line with
  | Some tok =>
      do e_value <- float_of tok ;;
      do ratio <- div (line_width ls) (literal "0.4") ;;
      let new_e_value := mul e_value ratio in
      Return (strip (re_sub "E" ("E" ++ format_f 5 new_e_value) line) ++ e_comment n)
  | None => Return line
  end.

(** Lines 96 to 128: perimeter blocks. *)
Definition perimeter_block (nominal : float) (total_layers : Z) (st : state)
    (line : string) : result state :=
  let z_shift := mul nominal (literal "0.5") in
  if motion st line then
    if negb (inside_perimeter_block st) then
      let st1 := open_block st in
      let n := perimeter_block_count st1 in
      let ls := calculate_layer_settings (current_layer st1) total_layers in
      let st2 := append st1 (z_line z_shift ls (current_z st1) n) in
      do line' <- adjust_e ls n line ;;
      Return (append (set_inside st2 false) line')
    else Return (append (set_inside st false) line)
  else Return (append st line).

(** One turn of the loop of line 69. *)
Definition process_line (nominal : float) (total_layers : Z) (st : state)
    (line : string) : result state :=
  if startswith line "G1 Z" then layer_change nominal st line
  else perimeter_block nominal total_layers (detect_type st line) line.

Fixpoint process_lines (nominal : float) (total_layers : Z) (st : state)
    (lines : list string) : result state :=
  match lines with
  | [] => Return st
  | line :: rest =>
      do st' <- process_line nominal total_layers st line ;;
      process_lines nominal total_layers st' rest
  end.

(** Line 65. *)
Definition count_layers (lines : list string) : Z :=
  Z.of_nat (List.length (filter (fun line => startswith line "G1 Z") lines)).

(** [process_gcode] from the lines it read to the lines it writes back; an
    exception leaves the file as it was. *)
Definition process_gcode (lines : list string) (nominal extrusion_multiplier : float)
    : result (list string) :=
  let total_layers := count_layers lines in
  do st <- process_lines nominal total_layers initial lines ;;
  Return (modified_lines st).

(** ** The file *)

(** What [open(input_file, 'r')] makes of the text of the file: with
    universal newlines, ["\r\n"] and a lone ["\r"] are read as ["\n"]. *)
Fixpoint universal_newlines (s : string) : string :=
  match s with
  | EmptyString => EmptyString
  | String c s' =>
      if Ascii.eqb c "013" then
        String "010"
          match s' with
          | String c' r => if Ascii.eqb c' "010" then universal_newlines r
                           else universal_newlines s'
          | EmptyString => EmptyString
          end
      else String c (universal_newlines s')
  end.

(** [infile.readlines()]: the text cut after every ["\n"], which stays on
    its line; the last line may lack one. *)
Fixpoint readlines (s : string) : list string :=
  match s with
  | EmptyString => []
  | String c s' =>
      if Ascii.eqb c "010" then String c EmptyString :: readlines s'
      else
        match readlines s' with
        | [] => [String c EmptyString]
        | l :: ls => String c l :: ls
        end
  end.

(** [outfile.writelines(lines)]: the lines one after the other, with nothing
    between them (on a system whose line separator is ["\n"]). *)
Definition writelines (lines : list string) : string :=
  fold_right String.append EmptyString lines.

(** [process_gcode] with the file made explicit: from the text of
    [input_file] before the call to its text after. An exception is raised
    before the file is opened for writing. *)
Definition process_gcode_file (text : string) (nominal extrusion_multiplier : float)
    : result string :=
  do out <- process_gcode (readlines (universal_newlines text)) nominal
                          extrusion_multiplier ;;
  Return (writelines out).

(** ** Vocabulary of the statements *)

(** The E token of a line is absent, or it is a number. *)
Definition e_token_ok (line : string) : bool :=
  match re_search "E" line with
  | Some tok => match of_string tok with Some _ => true | None => false end
  | None => true
  end.

(** A line that line 71 does not take. *)
Definition not_layer_change (line : string) : Prop := startswith line "G1 Z" = false.

(** A line that line 87 does not take. *)
Definition no_internal_marker (line : string) : Prop :=
  contains ";TYPE:Perimeter" line = false /\ contains ";TYPE:Inner wall" line = false.

(** The state after the marker line [";TYPE:Inner wall"] at the start of a run. *)
Definition after_inner_wall : state :=
  append (set_type initial (Some internal)) (";TYPE:Inner wall" ++ nl).

(** Lines 72 to 75 raise nothing on this line: it has no Z token, or the
    token is a number [z] and [int(z / nominal)] is defined. *)
Definition layer_ok (nominal : float) (line : string) : bool :=
  match re_search "Z" line with
  | None => true
  | Some tok =>
      match of_string tok with
      | None => false
      | Some z =>
          match (do q <- div z nominal ;; trunc q) with
          | Return _ => true
          | Raise _ => false
          end
      end
  end.

(** A line on which no turn of the loop can raise. *)
Definition line_safe (nominal : float) (line : string) : bool :=
  if startswith line "G1 Z" then layer_ok nominal line else e_token_ok line.

Definition is_finite (x : float) : bool :=
  match x with
  | S754_zero _ | S754_finite _ _ _ => true
  | _ => false
  end.

(** The character [c0] does not occur in the string. *)
Fixpoint lacks (c0 : ascii) (s : string) : bool :=
  match s with
  | EmptyString => true
  | String c s' => negb (Ascii.eqb c c0) && lacks c0 s'
  end.

(** No ["\n"] in the string. *)
Definition nl_free (s : string) : bool := lacks "010" s.

(** No ["\r"] in the string. *)
Definition cr_free (s : string) : bool := lacks "013" s.

(** A ["\n"] can only be the last character of the string. *)
Fixpoint nl_last (s : string) : bool :=
  match s with
  | EmptyString => true
  | String c s' =>
      (negb (Ascii.eqb c "010") || match s' with EmptyString => true | _ => false end)
      && nl_last s'
  end.

(** A digit. *)
Definition is_digit (c : ascii) : bool :=
  match digit_val c with Some _ => true | None => false end.

(** Every character of the string passes the test. *)
Fixpoint all_chars (P : ascii -> bool) (s : string) : bool :=
  match s with
  | EmptyString => true
  | String c s' => P c && all_chars P s'
  end.

(** A line with its ["\n"], at its end only. *)
Definition terminated (l : string) : Prop :=
  exists body, l = body ++ nl /\ nl_free body = true.

(** The lines of a text: all of them terminated, but for the last, which may
    be a non-empty line without ["\n"]. *)
Fixpoint file_lines (lines : list string) : Prop :=
  match lines with
  | [] => True
  | [l] => terminated l \/ (l <> EmptyString /\ nl_free l = true)
  | l :: rest => terminated l /\ file_lines rest
  end.

(** The characters of a formatted number: digits, ["-"], ["."] and the
    letters of ["inf"] and ["nan"]. *)
Definition is_number_char (c : ascii) : bool :=
  is_num_char c || Ascii.eqb c "i" || Ascii.eqb c "n" || Ascii.eqb c "f"
  || Ascii.eqb c "a".

(** ["\n"] or ["\r"]. *)
Definition line_break (c0 : ascii) : Prop := c0 = "010"%char \/ c0 = "013"%char.

(** Reads the fields of an updated state. *)
Ltac fields :=
  cbn [current_layer current_z perimeter_type perimeter_block_count
       inside_perimeter_block modified_lines
       append set_type set_inside open_block set_layer] in *.

(** * Properties *)

(** ** Unfolding the loop body *)

Lemma literal_0_4 : literal "0.4" = MIN_LINE_WIDTH.
Proof. vm_compute. reflexivity. Qed.

Lemma div_by_0_4 (x : float) :
  div x (literal "0.4") = Return (SFdiv prec emax x MIN_LINE_WIDTH).
Proof. rewrite literal_0_4. reflexivity. Qed.

Lemma process_line_layer nominal tl st line :
  startswith line "G1 Z" = true ->
  process_line nominal tl st line = layer_change nominal st line.
Proof. intros H. unfold process_line. rewrite H. reflexivity. Qed.

Lemma process_line_other nominal tl st line :
  startswith line "G1 Z" = false ->
  process_line nominal tl st line =
  perimeter_block nominal tl (detect_type st line) line.
Proof. intros H. unfold process_line. rewrite H. reflexivity. Qed.

(** [detect_type] touches [perimeter_type] and [inside_perimeter_block] only,
    and the second only to clear it. *)
Lemma detect_type_frame st line :
  current_layer (detect_type st line) = current_layer st /\
  current_z (detect_type st line) = current_z st /\
  perimeter_block_count (detect_type st line) = perimeter_block_count st /\
  modified_lines (detect_type st line) = modified_lines st.
Proof.
  unfold detect_type.
  destruct (_ || _); [now cbn|].
  destruct (_ || _); [now cbn|].
  destruct (contains _ _); now cbn.
Qed.

Lemma detect_type_inside st line :
  inside_perimeter_block st = false ->
  inside_perimeter_block (detect_type st line) = false.
Proof.
  intros H. unfold detect_type.
  destruct (_ || _); [reflexivity|].
  destruct (_ || _); [reflexivity|].
  destruct (contains _ _); [reflexivity|exact H].
Qed.

Lemma adjust_e_returns ls n line :
  e_token_ok line = true -> exists line', adjust_e ls n line = Return line'.
Proof.
  unfold e_token_ok, adjust_e, float_of. intros H.
  destruct (re_search "E" line) as [tok|]; [|eauto].
  destruct (of_string tok) as [e|]; [|discriminate].
  cbn [bind]. rewrite div_by_0_4. cbn [bind]. eauto.
Qed.

Lemma adjust_e_number ls n line tok e :
  re_search "E" line = Some tok -> of_string tok = Some e ->
  adjust_e ls n line =
  Return (strip (re_sub "E"
                   ("E" ++ format_f 5 (mul e (SFdiv prec emax (line_width ls) MIN_LINE_WIDTH)))
                   line) ++ e_comment n).
Proof.
  intros Hs Hf. unfold adjust_e, float_of. rewrite Hs, Hf. cbn [bind].
  rewrite div_by_0_4. reflexivity.
Qed.

(** A line that reaches line 98 with the block closed. *)
Lemma perimeter_block_opens nominal tl st line line' :
  motion st line = true ->
  inside_perimeter_block st = false ->
  adjust_e (calculate_layer_settings (current_layer st) tl)
           (perimeter_block_count st + 1) line = Return line' ->
  perimeter_block nominal tl st line =
  Return {| current_layer := current_layer st;
            current_z := current_z st;
            perimeter_type := perimeter_type st;
            perimeter_block_count := perimeter_block_count st + 1;
            inside_perimeter_block := false;
            modified_lines :=
              modified_lines st ++
              [z_line (mul nominal (literal "0.5"))
                      (calculate_layer_settings (current_layer st) tl)
                      (current_z st) (perimeter_block_count st + 1);
               line'] |}.
Proof.
  intros Hm Hi He. unfold perimeter_block. rewrite Hm, Hi. cbn [negb].
  cbn [open_block current_layer current_z perimeter_block_count].
  rewrite He. cbn [bind].
  unfold append, set_inside, open_block. cbn.
  rewrite <- app_assoc. reflexivity.
Qed.

Lemma perimeter_block_other nominal tl st line :
  motion st line = false ->
  perimeter_block nominal tl st line = Return (append st line).
Proof. intros Hm. unfold perimeter_block. rewrite Hm. reflexivity. Qed.

(** The block counter after one turn of [perimeter_block]. *)
Lemma perimeter_block_count_step nominal tl st line st' :
  perimeter_block nominal tl st line = Return st' ->
  perimeter_block_count st <= perimeter_block_count st' <= perimeter_block_count st + 1.
Proof.
  unfold perimeter_block.
  destruct (motion st line); [|intros [= <-]; cbn; lia].
  destruct (inside_perimeter_block st); cbn [negb].
  - intros [= <-]. cbn. lia.
  - destruct (adjust_e _ _ line) as [l|]; cbn [bind]; [|discriminate].
    intros [= <-]. cbn. lia.
Qed.

Lemma perimeter_block_layer nominal tl st line st' :
  perimeter_block nominal tl st line = Return st' ->
  current_layer st' = current_layer st /\ current_z st' = current_z st.
Proof.
  unfold perimeter_block.
  destruct (motion st line); [|intros [= <-]; now cbn].
  destruct (inside_perimeter_block st); cbn [negb].
  - intros [= <-]. now cbn.
  - destruct (adjust_e _ _ line) as [l|]; cbn [bind]; [|discriminate].
    intros [= <-]. now cbn.
Qed.

(** ** The layer setting policy *)

(** C7: [calculate_layer_settings] is a total function of the parity of the
    layer index alone. An even index gives layer height 0.30 and line width
    0.40, an odd index gives layer height 0.15 and line width 0.50, and the
    total number of layers plays no part. *)
Theorem calculate_layer_settings_parity (layer_number total_layers : Z) :
  calculate_layer_settings layer_number total_layers =
  if Z.even layer_number then
    {| layer_height := literal "0.30"; line_width := literal "0.40" |}
  else
    {| layer_height := literal "0.15"; line_width := literal "0.50" |}.
Proof.
  unfold calculate_layer_settings.
  rewrite Zeven_mod.
  destruct (layer_number mod 2 =? 0); vm_compute; reflexivity.
Qed.

(** ** Concrete runs *)

(** C9: the rewriter is not idempotent. On a layer at Z 0.2 (index 1, line
    width 0.5) with one inner wall move, a second run on the output of the
    first reads the inserted Z line as a layer change, shifts Z again (0.215
    becomes 0.230), scales E again (1.25 becomes 1.5625) and appends the
    comment again. *)
Theorem process_gcode_not_idempotent :
  let lines := ["G1 Z0.2" ++ nl; ";TYPE:Perimeter" ++ nl; "G1 X1 Y1 E1" ++ nl] in
  let once :=
    ["G1 Z0.2" ++ nl; ";TYPE:Perimeter" ++ nl;
     "G1 Z0.215 ; Shifted Z for block #1" ++ nl;
     "G1 X1 Y1 E1.25000 ; Adjusted E for layer settings, block #1" ++ nl] in
  let twice :=
    ["G1 Z0.2" ++ nl; ";TYPE:Perimeter" ++ nl;
     "G1 Z0.215 ; Shifted Z for block #1" ++ nl;
     "G1 Z0.230 ; Shifted Z for block #1" ++ nl;
     "G1 X1 Y1 E1.56250 ; Adjusted E for layer settings, block #1 ; Adjusted E for layer settings, block #1"
     ++ nl] in
  process_gcode lines (literal "0.2") (literal "1") = Return once /\
  process_gcode once (literal "0.2") (literal "1") = Return twice /\
  once <> twice.
Proof.
  cbv zeta.
  split; [vm_compute; reflexivity|].
  split; [vm_compute; reflexivity|].
  intros H. apply (f_equal (@List.length string)) in H. discriminate H.
Qed.

(** C3: the rewriter aborts on a malformed number. A Z token or an E token
    made of the pattern's characters that is not a number ("1.2.3", "-")
    matches the pattern, and [float] raises [ValueError] on it. *)
Theorem malformed_number_aborts :
  process_gcode ["G1 Z1.2.3" ++ nl] (literal "0.2") (literal "1")
  = Raise ValueError /\
  process_gcode [";TYPE:Perimeter" ++ nl; "G1 X1 Y1 E-" ++ nl]
                (literal "0.2") (literal "1")
  = Raise ValueError.
Proof. split; vm_compute; reflexivity. Qed.

(** C4: the layer change ["G1 Z2.400"] at a nominal layer height of 0.2 sets
    [current_z] to 2.4 and [current_layer] to 11, not 12: the binary64
    quotient of 2.4 by 0.2 is just below 12 and [int] truncates it. The layer
    below, at Z 2.2, has index 11 as well. *)
Theorem layer_of_Z2_400 (total_layers : Z) (st : state) :
  process_line (literal "0.2") total_layers st ("G1 Z2.400" ++ nl) =
  Return {| current_layer := 11;
            current_z := literal "2.4";
            perimeter_type := perimeter_type st;
            perimeter_block_count := 0;
            inside_perimeter_block := inside_perimeter_block st;
            modified_lines := modified_lines st ++ ["G1 Z2.400" ++ nl] |} /\
  process_line (literal "0.2") total_layers st ("G1 Z2.200" ++ nl) =
  Return {| current_layer := 11;
            current_z := literal "2.2";
            perimeter_type := perimeter_type st;
            perimeter_block_count := 0;
            inside_perimeter_block := inside_perimeter_block st;
            modified_lines := modified_lines st ++ ["G1 Z2.200" ++ nl] |}.
Proof. split; vm_compute; reflexivity. Qed.

(** What does hold of a layer change whose Z token is a number: the layer is
    the binary64 quotient truncated, which is its floor when it is not
    negative; the block counter is reset and the line is kept. *)
Lemma trunc_floor_nonneg (x : float) : nonneg x = true -> trunc x = floor x.
Proof.
  destruct x as [s|s| |s m e]; try reflexivity.
  cbn. intros H. apply negb_true_iff in H. subst s. cbn.
  destruct (0 <=? e); reflexivity.
Qed.

Lemma layer_change_sets_layer nominal tl st line tok z q l :
  startswith line "G1 Z" = true ->
  re_search "Z" line = Some tok -> of_string tok = Some z ->
  div z nominal = Return q -> trunc q = Return l ->
  process_line nominal tl st line = Return (append (set_layer st z l) line) /\
  (nonneg q = true -> floor q = Return l).
Proof.
  intros HZ Hs Hf Hd Ht. split.
  - rewrite (process_line_layer _ _ _ _ HZ). unfold layer_change, float_of.
    rewrite Hs, Hf. cbn [bind]. rewrite Hd. cbn [bind]. rewrite Ht. reflexivity.
  - intros Hn. rewrite <- (trunc_floor_nonneg _ Hn). exact Ht.
Qed.

(** [int] truncates towards zero: below zero it is not [floor]. *)
Example layer_of_negative_Z (total_layers : Z) (st : state) :
  current_layer (set_layer st (literal "-0.1") 0) = 0 /\
  process_line (literal "0.2") total_layers st ("G1 Z-0.1" ++ nl) =
  Return (append (set_layer st (literal "-0.1") 0) ("G1 Z-0.1" ++ nl)) /\
  (do q <- div (literal "-0.1") (literal "0.2") ;; floor q) = Return (-1).
Proof. repeat split; vm_compute; reflexivity. Qed.

(** ** Perimeter blocks *)

Lemma after_inner_wall_reached nominal tl :
  process_line nominal tl initial (";TYPE:Inner wall" ++ nl) = Return after_inner_wall.
Proof. reflexivity. Qed.

Lemma z_line_parity z_shift ls z n :
  z_line z_shift ls z n =
  "G1 Z"
  ++ format_f 3 (if Z.odd n then add z (mul z_shift (layer_height ls)) else z)
  ++ (if Z.odd n then " ; Shifted Z for block #" else " ; Reset Z for block #")
  ++ str_int n ++ nl.
Proof.
  unfold z_line. rewrite Zodd_mod. destruct (n mod 2 =? 1); reflexivity.
Qed.

(** C1, as stated, fails in three ways. In the state after an inner wall
    marker, a line that starts with "G1" and contains X, Y and E opens no
    block when it is a layer change ("G1 Z5 X1 Y1 E1"), when it carries a
    marker of another type, and when its E token is not a number. *)
Lemma motion_line_opens_no_block :
  let st := after_inner_wall in
  let opens line :=
    exists st', process_line (literal "0.2") 0 st line = Return st' /\
                perimeter_block_count st' = perimeter_block_count st + 1 in
  let qualifies line :=
    startswith line "G1" && contains "X" line && contains "Y" line
    && contains "E" line in
  perimeter_type st = Some internal /\ inside_perimeter_block st = false /\
  (qualifies ("G1 Z5 X1 Y1 E1" ++ nl) = true /\ ~ opens ("G1 Z5 X1 Y1 E1" ++ nl)) /\
  (qualifies ("G1 X1 Y1 E1 ;TYPE:Solid infill" ++ nl) = true /\
   ~ opens ("G1 X1 Y1 E1 ;TYPE:Solid infill" ++ nl)) /\
  (qualifies ("G1 X1 Y1 E-" ++ nl) = true /\ ~ opens ("G1 X1 Y1 E-" ++ nl)).
Proof.
  cbv zeta. repeat split; try reflexivity.
  all: intros [st' [H C]]; vm_compute in H; try discriminate H.
  all: injection H as <-; vm_compute in C; discriminate C.
Qed.

(** C1, amended: in a state with [perimeter_type = internal] and the block
    closed, a line that starts with "G1" and contains X, Y and E, that is not
    a layer change, carries no marker of another type and whose E token, if
    any, is a number, increments the block counter and puts a Z line before
    itself in the output, to 3 decimals: for an odd new count
    [current_z + (nominal * 0.5) * settings.layer_height], for an even one
    [current_z]. *)
Theorem internal_motion_opens_block nominal tl st line :
  perimeter_type st = Some internal ->
  inside_perimeter_block st = false ->
  startswith line "G1" = true ->
  contains "X" line = true -> contains "Y" line = true -> contains "E" line = true ->
  startswith line "G1 Z" = false ->
  perimeter_type (detect_type st line) = Some internal ->
  e_token_ok line = true ->
  let n := perimeter_block_count st + 1 in
  let ls := calculate_layer_settings (current_layer st) tl in
  let z := if Z.odd n
           then add (current_z st) (mul (mul nominal (literal "0.5")) (layer_height ls))
           else current_z st in
  let note := if Z.odd n then " ; Shifted Z for block #" else " ; Reset Z for block #" in
  exists line',
    adjust_e ls n line = Return line' /\
    process_line nominal tl st line =
    Return {| current_layer := current_layer st;
              current_z := current_z st;
              perimeter_type := Some internal;
              perimeter_block_count := n;
              inside_perimeter_block := false;
              modified_lines :=
                modified_lines st
                ++ ["G1 Z" ++ format_f 3 z ++ note ++ str_int n ++ nl; line'] |}.
Proof.
  intros Hp Hi HG HX HY HE HZ Hd Hok n ls z note.
  destruct (adjust_e_returns ls n line Hok) as [line' Hl].
  exists line'. split; [exact Hl|].
  rewrite (process_line_other _ _ _ _ HZ).
  destruct (detect_type_frame st line) as (Fl & Fz & Fc & Fm).
  rewrite (perimeter_block_opens nominal tl (detect_type st line) line line').
  - rewrite Fl, Fz, Fc, Fm, Hd, z_line_parity. reflexivity.
  - unfold motion. rewrite Hd, HG, HX, HY, HE. reflexivity.
  - apply detect_type_inside, Hi.
  - rewrite Fl, Fc. exact Hl.
Qed.

Lemma internal_motion_opens_block_witness :
  exists line',
    adjust_e (calculate_layer_settings 0 0) 1 ("G1 X1 Y1 E1" ++ nl) = Return line' /\
    process_line (literal "0.2") 0 after_inner_wall ("G1 X1 Y1 E1" ++ nl) =
    Return {| current_layer := 0;
              current_z := S754_zero false;
              perimeter_type := Some internal;
              perimeter_block_count := 1;
              inside_perimeter_block := false;
              modified_lines :=
                [";TYPE:Inner wall" ++ nl]
                ++ ["G1 Z"
                    ++ format_f 3 (add (S754_zero false)
                                       (mul (mul (literal "0.2") (literal "0.5"))
                                            (layer_height (calculate_layer_settings 0 0))))
                    ++ " ; Shifted Z for block #" ++ str_int 1 ++ nl;
                    line'] |}.
Proof.
  apply (internal_motion_opens_block (literal "0.2") 0 after_inner_wall
           ("G1 X1 Y1 E1" ++ nl)); reflexivity.
Defined.

(** ** The E value *)

(** A line with one E token, [pre ++ "E" ++ tok ++ post]: the pattern finds
    [tok], and the substitution rewrites that token and nothing else. *)
Lemma re_sub_clean k repl s (skip : bool) :
  (skip = true -> starts_num s = false) ->
  re_search k s = None ->
  re_sub_from k repl skip s = s.
Proof.
  revert skip. induction s as [|c s IH]; intros skip Hs Hn; [reflexivity|].
  cbn [re_sub_from re_search] in *.
  destruct (Ascii.eqb c k && starts_num s); [discriminate|].
  assert (skip && is_num_char c = false) as ->.
  { destruct skip; [|reflexivity]. cbn. apply Hs. reflexivity. }
  f_equal. apply IH; [discriminate|exact Hn].
Qed.

Lemma re_sub_skips k repl tok post :
  num_run tok = tok -> starts_num post = false ->
  re_sub_from k repl true (tok ++ post) = re_sub_from k repl true post.
Proof.
  intros Ht Hp. induction tok as [|c tok IH]; [reflexivity|].
  cbn [num_run] in Ht. cbn [String.append re_sub_from].
  destruct (is_num_char c); [|discriminate]. cbn [andb].
  apply IH. now injection Ht.
Qed.

Lemma num_run_app tok post :
  num_run tok = tok -> starts_num post = false -> num_run (tok ++ post) = tok.
Proof.
  intros Ht Hp. induction tok as [|c tok IH].
  - destruct post as [|c p]; [reflexivity|]. cbn in *. now rewrite Hp.
  - cbn [num_run String.append] in *. destruct (is_num_char c); [|discriminate].
    f_equal. apply IH. now injection Ht.
Qed.

Lemma one_token_rewritten k repl pre tok post :
  contains (String k "") pre = false ->
  tok <> "" -> num_run tok = tok ->
  starts_num post = false -> re_search k post = None ->
  re_search k (pre ++ String k tok ++ post) = Some tok /\
  re_sub k repl (pre ++ String k tok ++ post) = pre ++ repl ++ post.
Proof.
  intros Hpre Hne Ht Hp Hn. unfold re_sub.
  assert (Hst : starts_num (tok ++ post) = true).
  { destruct tok as [|c tok]; [congruence|]. cbn in *.
    destruct (is_num_char c); [reflexivity|discriminate]. }
  remember (String k tok ++ post) as rest eqn:Hrest.
  induction pre as [|c pre IH].
  - subst rest. cbn [String.append re_search re_sub_from andb].
    rewrite Ascii.eqb_refl, Hst. cbn [andb].
    rewrite num_run_app, re_sub_skips, re_sub_clean by auto. split; reflexivity.
  - cbn [contains String.prefix] in Hpre.
    destruct (ascii_dec k c) as [->|Hkc].
    { destruct pre; discriminate Hpre. }
    destruct IH as [IH1 IH2]; [exact Hpre|].
    cbn [String.append re_search re_sub_from andb].
    assert (Ascii.eqb c k = false) as ->.
    { apply Ascii.eqb_neq. congruence. }
    cbn [andb]. rewrite IH1, IH2. split; reflexivity.
Qed.

(** C2: a line that reaches the block code in internal context with the
    block closed, and whose E token is a number [e], leaves with every E
    token replaced by [e * (settings.line_width / 0.4)] to 5 decimals, with
    its white space stripped and the comment appended. Where the line width
    is 0.5 (an odd layer), ["E1.23456"] becomes ["E1.54320"]. *)
Theorem e_value_rescaled :
  (forall nominal tl st line tok e,
     startswith line "G1 Z" = false ->
     motion (detect_type st line) line = true ->
     inside_perimeter_block (detect_type st line) = false ->
     re_search "E" line = Some tok ->
     of_string tok = Some e ->
     let n := perimeter_block_count st + 1 in
     let ls := calculate_layer_settings (current_layer st) tl in
     let new_e := mul e (SFdiv prec emax (line_width ls) (literal "0.4")) in
     let new_line :=
       strip (re_sub "E" ("E" ++ format_f 5 new_e) line)
       ++ " ; Adjusted E for layer settings, block #" ++ str_int n ++ nl in
     exists st',
       process_line nominal tl st line = Return st' /\
       perimeter_block_count st' = n /\
       modified_lines st' =
       (modified_lines st
        ++ [z_line (mul nominal (literal "0.5")) ls (current_z st) n; new_line])%list) /\
  (line_width (calculate_layer_settings 1 0) = literal "0.5" /\
   forall nominal tl, exists st',
     process_line nominal tl (set_layer after_inner_wall (literal "0.2") 1)
                  ("G1 X1 Y1 E1.23456" ++ nl) = Return st' /\
     List.last (modified_lines st') "" =
     "G1 X1 Y1 E1.54320 ; Adjusted E for layer settings, block #1" ++ nl).
Proof.
  split.
  - intros nominal tl st line tok e HZ Hm Hi Hs Hf n ls new_e new_line.
    destruct (detect_type_frame st line) as (Fl & Fz & Fc & Fm).
    rewrite (process_line_other _ _ _ _ HZ).
    rewrite (perimeter_block_opens nominal tl (detect_type st line) line new_line
               Hm Hi).
    + eexists. split; [reflexivity|]. cbn. rewrite Fl, Fz, Fc, Fm. auto.
    + rewrite Fl, Fc. rewrite (adjust_e_number _ _ _ _ _ Hs Hf).
      unfold new_line, new_e, e_comment. rewrite literal_0_4. reflexivity.
  - split; [vm_compute; reflexivity|].
    intros nominal tl.
    rewrite process_line_other by reflexivity.
    erewrite perimeter_block_opens; [| reflexivity | reflexivity | vm_compute; reflexivity].
    eexists. split; [reflexivity|]. reflexivity.
Qed.

Lemma e_value_rescaled_witness :
  let new_e :=
    mul (literal "2.5")
        (SFdiv prec emax (line_width (calculate_layer_settings 0 0)) (literal "0.4")) in
  let new_line :=
    strip (re_sub "E" ("E" ++ format_f 5 new_e) ("G1 X1 Y1 E2.5" ++ nl))
    ++ " ; Adjusted E for layer settings, block #" ++ str_int 1 ++ nl in
  exists st',
    process_line (literal "0.2") 0 after_inner_wall ("G1 X1 Y1 E2.5" ++ nl)
    = Return st' /\
    perimeter_block_count st' = 1 /\
    modified_lines st' =
    [";TYPE:Inner wall" ++ nl;
     z_line (mul (literal "0.2") (literal "0.5")) (calculate_layer_settings 0 0)
            (S754_zero false) 1;
     new_line].
Proof.
  apply (proj1 e_value_rescaled (literal "0.2") 0 after_inner_wall
           ("G1 X1 Y1 E2.5" ++ nl) "2.5" (literal "2.5")); reflexivity.
Defined.

(** ** Lines that are not motion lines *)

Lemma prefix_shorter (p q s : string) :
  String.prefix (p ++ q) s = true -> String.prefix p s = true.
Proof.
  revert s. induction p as [|a p IH]; intros s H.
  - destruct s; reflexivity.
  - destruct s as [|b s]; cbn in *; [discriminate|].
    destruct (ascii_dec a b); [apply IH, H|discriminate].
Qed.



Lemma not_G1_not_layer_change line :
  startswith line "G1" = false -> startswith line "G1 Z" = false.
Proof.
  unfold startswith. intros H.
  destruct (String.prefix "G1 Z" line) eqn:E; [|reflexivity].
  apply (prefix_shorter "G1" " Z") in E. congruence.
Qed.


Lemma detect_type_not_internal st line :
  contains ";TYPE:Perimeter" line = false ->
  contains ";TYPE:Inner wall" line = false ->
  is_internal (perimeter_type st) = false ->
  is_internal (perimeter_type (detect_type st line)) = false.
Proof.
  intros H1 H2 H. unfold detect_type. rewrite H1, H2.
  destruct (_ || _); [reflexivity|]. cbn [orb].
  destruct (contains ";TYPE:" line); [reflexivity|exact H].
Qed.

Lemma motion_needs_internal st line :
  is_internal (perimeter_type st) = false -> motion st line = false.
Proof. intros H. unfold motion. rewrite H. reflexivity. Qed.

Lemma motion_needs_G1 st line :
  startswith line "G1" = false -> motion st line = false.
Proof.
  intros H. unfold motion. rewrite H.
  destruct (is_internal _); reflexivity.
Qed.

(** C6, as stated, fails: the line ["G1 X1 Y1 E1 ;TYPE:Inner wall"] at the
    start of a run sets [perimeter_type] from its marker and, in the same
    turn, opens block 1, gets a Z line before it and has its E value
    rewritten. *)
Lemma marker_line_handled_twice :
  let line := "G1 X1 Y1 E1 ;TYPE:Inner wall" ++ nl in
  perimeter_type initial = None /\
  contains ";TYPE:Inner wall" line = true /\
  process_line (literal "0.2") 0 initial line =
  Return {| current_layer := 0;
            current_z := S754_zero false;
            perimeter_type := Some internal;
            perimeter_block_count := 1;
            inside_perimeter_block := false;
            modified_lines :=
              ["G1 Z0.030 ; Shifted Z for block #1" ++ nl;
               "G1 X1 Y1 E1.00000 ;TYPE:Inner wall ; Adjusted E for layer settings, block #1"
               ++ nl] |}.
Proof. cbv zeta. repeat split; vm_compute; reflexivity. Qed.

(** C6, amended: a line that does not start with "G1", a comment line of the
    slicer among them, is never handled as a perimeter motion line. It sets
    [perimeter_type] from its marker, if it has one, opens no block and goes
    to the output as it is, with nothing before it. *)
Theorem marker_line_not_motion nominal tl st line :
  startswith line "G1" = false ->
  process_line nominal tl st line =
  Return {| current_layer := current_layer st;
            current_z := current_z st;
            perimeter_type := perimeter_type (detect_type st line);
            perimeter_block_count := perimeter_block_count st;
            inside_perimeter_block := inside_perimeter_block (detect_type st line);
            modified_lines := modified_lines st ++ [line] |}.
Proof.
  intros H.
  rewrite (process_line_other _ _ _ _ (not_G1_not_layer_change _ H)).
  rewrite perimeter_block_other by (apply motion_needs_G1, H).
  destruct (detect_type_frame st line) as (Fl & Fz & Fc & Fm).
  unfold append. rewrite Fl, Fz, Fc, Fm. reflexivity.
Qed.

Lemma marker_line_not_motion_witness :
  process_line (literal "0.2") 0 initial (";TYPE:Inner wall X Y E" ++ nl) =
  Return {| current_layer := 0;
            current_z := S754_zero false;
            perimeter_type := Some internal;
            perimeter_block_count := 0;
            inside_perimeter_block := false;
            modified_lines := [";TYPE:Inner wall X Y E" ++ nl] |}.
Proof.
  apply (marker_line_not_motion (literal "0.2") 0 initial
           (";TYPE:Inner wall X Y E" ++ nl)).
  reflexivity.
Defined.

(** ** Layer changes and the block counter *)

Lemma layer_change_frame nominal st line st' :
  layer_change nominal st line = Return st' ->
  perimeter_type st' = perimeter_type st /\
  inside_perimeter_block st' = inside_perimeter_block st /\
  modified_lines st' = (modified_lines st ++ [line])%list /\
  match re_search "Z" line with
  | Some _ => perimeter_block_count st' = 0
  | None => st' = append st line
  end.
Proof.
  unfold layer_change. destruct (re_search "Z" line) as [tok|].
  - destruct (float_of tok) as [z|]; cbn [bind]; [|discriminate].
    destruct (div z nominal) as [q|]; cbn [bind]; [|discriminate].
    destruct (trunc q) as [l|]; cbn [bind]; [|discriminate].
    intros [= <-]. cbn. auto.
  - intros [= <-]. cbn. auto.
Qed.

Lemma process_line_keeps_layer nominal tl st line st' :
  not_layer_change line ->
  process_line nominal tl st line = Return st' ->
  current_layer st' = current_layer st /\ current_z st' = current_z st /\
  perimeter_block_count st <= perimeter_block_count st' <= perimeter_block_count st + 1.
Proof.
  intros HZ. rewrite (process_line_other _ _ _ _ HZ). intros H.
  destruct (detect_type_frame st line) as (Fl & Fz & Fc & _).
  destruct (perimeter_block_layer _ _ _ _ _ H) as [Hl Hz].
  pose proof (perimeter_block_count_step _ _ _ _ _ H) as Hc.
  rewrite Fl in Hl. rewrite Fz in Hz. rewrite Fc in Hc. auto.
Qed.

Lemma process_lines_keep_layer nominal tl lines : forall st st',
  Forall not_layer_change lines ->
  process_lines nominal tl st lines = Return st' ->
  current_layer st' = current_layer st /\ current_z st' = current_z st /\
  perimeter_block_count st <= perimeter_block_count st'.
Proof.
  induction lines as [|line rest IH]; intros st st' HF H.
  - injection H as <-. repeat split; lia.
  - inversion HF as [|? ? Hline Hrest]; subst. cbn [process_lines] in H.
    destruct (process_line nominal tl st line) as [st1|] eqn:E; cbn [bind] in H;
      [|discriminate].
    destruct (process_line_keeps_layer _ _ _ _ _ Hline E) as (Hl & Hz & Hc).
    destruct (IH _ _ Hrest H) as (Hl' & Hz' & Hc').
    repeat split; try congruence; lia.
Qed.

(** Without an internal marker the scan copies its input. *)
Lemma process_lines_plain nominal tl lines : forall st,
  Forall not_layer_change lines ->
  Forall no_internal_marker lines ->
  is_internal (perimeter_type st) = false ->
  exists st',
    process_lines nominal tl st lines = Return st' /\
    modified_lines st' = (modified_lines st ++ lines)%list /\
    perimeter_block_count st' = perimeter_block_count st /\
    is_internal (perimeter_type st') = false.
Proof.
  induction lines as [|line rest IH]; intros st HF HM Hp.
  - exists st. cbn. rewrite app_nil_r. auto.
  - inversion HF as [|? ? Hline Hrest]; subst.
    inversion HM as [|? ? [Hm1 Hm2] Hmrest]; subst.
    cbn [process_lines]. rewrite (process_line_other _ _ _ _ Hline).
    pose proof (detect_type_not_internal st line Hm1 Hm2 Hp) as Hp'.
    rewrite perimeter_block_other by (apply motion_needs_internal, Hp').
    cbn [bind].
    destruct (IH (append (detect_type st line) line) Hrest Hmrest Hp')
      as (st' & Hr & Hout & Hc & Hi).
    destruct (detect_type_frame st line) as (_ & _ & Fc & Fm).
    exists st'. split; [exact Hr|]. cbn in Hout, Hc.
    rewrite Hout, Hc, Fc, Fm, <- app_assoc. auto.
Qed.

Lemma count_layers_none lines :
  Forall not_layer_change lines -> count_layers lines = 0.
Proof.
  unfold count_layers. intros HF.
  induction HF as [|line rest Hline _ IH]; [reflexivity|].
  cbn [filter]. unfold not_layer_change in Hline. rewrite Hline. exact IH.
Qed.

(** C5, as stated, fails: an inner wall marker and one move, with no layer
    change in the file. [total_layers] is 0, yet [perimeter_type] and the
    block counter change and the output has one line more than the input. *)
Lemma no_layer_change_output_differs :
  let lines := [";TYPE:Perimeter" ++ nl; "G1 X1 Y1 E1" ++ nl] in
  Forall not_layer_change lines /\
  count_layers lines = 0 /\
  process_lines (literal "0.2") 0 initial lines =
  Return {| current_layer := 0;
            current_z := S754_zero false;
            perimeter_type := Some internal;
            perimeter_block_count := 1;
            inside_perimeter_block := false;
            modified_lines :=
              [";TYPE:Perimeter" ++ nl;
               "G1 Z0.030 ; Shifted Z for block #1" ++ nl;
               "G1 X1 Y1 E1.00000 ; Adjusted E for layer settings, block #1" ++ nl] |} /\
  exists out,
    process_gcode lines (literal "0.2") (literal "1") = Return out /\ out <> lines.
Proof.
  cbv zeta. split; [repeat constructor|].
  split; [reflexivity|]. split; [vm_compute; reflexivity|].
  eexists. split; [vm_compute; reflexivity|].
  intros H. apply (f_equal (@List.length string)) in H. discriminate H.
Qed.

(** C5, amended: in a file with no layer change [total_layers] is 0 and
    [current_layer] and [current_z] keep their first values all along the
    scan; [perimeter_type] follows the markers as in any file. If no line
    has an internal marker either, the block counter stays 0 and the output
    is the input. *)
Theorem no_layer_change_run (lines : list string) (nominal em : float) :
  Forall not_layer_change lines ->
  count_layers lines = 0 /\
  (forall tl pre post st',
     lines = (pre ++ post)%list ->
     process_lines nominal tl initial pre = Return st' ->
     current_layer st' = 0 /\ current_z st' = S754_zero false) /\
  (Forall no_internal_marker lines ->
   process_gcode lines nominal em = Return lines /\
   exists st',
     process_lines nominal (count_layers lines) initial lines = Return st' /\
     perimeter_block_count st' = 0).
Proof.
  intros HF. split; [apply count_layers_none, HF|]. split.
  - intros tl pre post st' -> H.
    apply Forall_app in HF. destruct HF as [Hpre _].
    destruct (process_lines_keep_layer _ _ _ _ _ Hpre H) as (Hl & Hz & _). auto.
  - intros HM.
    destruct (process_lines_plain nominal (count_layers lines) lines initial HF HM
                eq_refl) as (st' & Hr & Hout & Hc & _).
    split; [|exists st'; auto].
    unfold process_gcode. rewrite Hr. cbn [bind]. rewrite Hout. reflexivity.
Qed.

Lemma no_layer_change_run_witness :
  let lines := ["; a comment" ++ nl; ";TYPE:Outer wall" ++ nl; "G1 X1 Y1 E1" ++ nl] in
  Forall not_layer_change lines /\
  Forall no_internal_marker lines /\
  count_layers lines = 0 /\
  process_gcode lines (literal "0.2") (literal "1") = Return lines.
Proof.
  cbv zeta.
  assert (HF : Forall not_layer_change
                 ["; a comment" ++ nl; ";TYPE:Outer wall" ++ nl; "G1 X1 Y1 E1" ++ nl])
    by (repeat constructor).
  assert (HM : Forall no_internal_marker
                 ["; a comment" ++ nl; ";TYPE:Outer wall" ++ nl; "G1 X1 Y1 E1" ++ nl])
    by (repeat constructor).
  destruct (no_layer_change_run _ (literal "0.2") (literal "1") HF) as (H1 & _ & H3).
  split; [exact HF|]. split; [exact HM|]. split; [exact H1|].
  exact (proj1 (H3 HM)).
Defined.

(** C8, as stated, fails: the layer-change line ["G1 Z"] has no number after
    the Z, so the scan leaves the block counter at 1. *)
Lemma layer_change_without_number_keeps_count :
  let st := {| current_layer := 0;
               current_z := S754_zero false;
               perimeter_type := Some internal;
               perimeter_block_count := 1;
               inside_perimeter_block := false;
               modified_lines :=
                 [";TYPE:Perimeter" ++ nl;
                  "G1 Z0.030 ; Shifted Z for block #1" ++ nl;
                  "G1 X1 Y1 E1.00000 ; Adjusted E for layer settings, block #1" ++ nl] |} in
  process_lines (literal "0.2") 1 initial
    [";TYPE:Perimeter" ++ nl; "G1 X1 Y1 E1" ++ nl] = Return st /\
  startswith ("G1 Z" ++ nl) "G1 Z" = true /\
  exists st',
    process_line (literal "0.2") 1 st ("G1 Z" ++ nl) = Return st' /\
    perimeter_block_count st' = 1.
Proof.
  cbv zeta. split; [vm_compute; reflexivity|]. split; [reflexivity|].
  eexists. split; [vm_compute; reflexivity|]. reflexivity.
Qed.

(** C8, amended: a line that is not a layer change leaves the block counter
    as it is or adds one to it, so the counter never decreases between two
    layer changes; a layer-change line with a Z token sets it to 0, and one
    without a Z token leaves it as it is. *)
Theorem block_count_between_layers :
  (forall nominal tl st line st',
     process_line nominal tl st line = Return st' ->
     if startswith line "G1 Z" then
       match re_search "Z" line with
       | Some _ => perimeter_block_count st' = 0
       | None => perimeter_block_count st' = perimeter_block_count st
       end
     else
       perimeter_block_count st <= perimeter_block_count st'
       <= perimeter_block_count st + 1) /\
  (forall nominal tl st lines st',
     Forall not_layer_change lines ->
     process_lines nominal tl st lines = Return st' ->
     perimeter_block_count st <= perimeter_block_count st').
Proof.
  split.
  - intros nominal tl st line st' H.
    destruct (startswith line "G1 Z") eqn:E.
    + rewrite (process_line_layer _ _ _ _ E) in H.
      destruct (layer_change_frame _ _ _ _ H) as (_ & _ & _ & Hc).
      destruct (re_search "Z" line); [exact Hc|]. subst st'. reflexivity.
    + apply (process_line_keeps_layer _ _ _ _ _ E H).
  - intros nominal tl st lines st' HF H.
    apply (process_lines_keep_layer _ _ _ _ _ HF H).
Qed.

Lemma block_count_between_layers_witness :
  let st1 := {| current_layer := 0;
                current_z := S754_zero false;
                perimeter_type := Some internal;
                perimeter_block_count := 1;
                inside_perimeter_block := false;
                modified_lines :=
                  [";TYPE:Inner wall" ++ nl;
                   "G1 Z0.030 ; Shifted Z for block #1" ++ nl;
                   "G1 X1 Y1 E1.00000 ; Adjusted E for layer settings, block #1"
                   ++ nl] |} in
  let st2 := append (set_layer st1 (literal "0.4") 2) ("G1 Z0.4" ++ nl) in
  let st3 := {| current_layer := 0;
                current_z := S754_zero false;
                perimeter_type := Some internal;
                perimeter_block_count := 2;
                inside_perimeter_block := false;
                modified_lines :=
                  [";TYPE:Inner wall" ++ nl;
                   "G1 Z0.030 ; Shifted Z for block #1" ++ nl;
                   "G1 X1 Y1 E1.00000 ; Adjusted E for layer settings, block #1"
                   ++ nl;
                   "G1 Z0.000 ; Reset Z for block #2" ++ nl;
                   "G1 X2 Y2 E2.00000 ; Adjusted E for layer settings, block #2"
                   ++ nl] |} in
  (perimeter_block_count st1 = 1 /\ perimeter_block_count st2 = 0) /\
  (perimeter_block_count after_inner_wall = 0 /\
   perimeter_block_count after_inner_wall <= perimeter_block_count st1
   <= perimeter_block_count after_inner_wall + 1) /\
  (perimeter_block_count st3 = 2 /\
   perimeter_block_count after_inner_wall <= perimeter_block_count st3).
Proof.
  cbv zeta. split; [|split].
  - split; [reflexivity|].
    apply (proj1 block_count_between_layers (literal "0.2") 0
             {| current_layer := 0;
                current_z := S754_zero false;
                perimeter_type := Some internal;
                perimeter_block_count := 1;
                inside_perimeter_block := false;
                modified_lines :=
                  [";TYPE:Inner wall" ++ nl;
                   "G1 Z0.030 ; Shifted Z for block #1" ++ nl;
                   "G1 X1 Y1 E1.00000 ; Adjusted E for layer settings, block #1"
                   ++ nl] |}
             ("G1 Z0.4" ++ nl)).
    vm_compute. reflexivity.
  - split; [reflexivity|].
    apply (proj1 block_count_between_layers (literal "0.2") 0 after_inner_wall
             ("G1 X1 Y1 E1" ++ nl)).
    vm_compute. reflexivity.
  - split; [reflexivity|].
    apply (proj2 block_count_between_layers (literal "0.2") 0 after_inner_wall
             ["G1 X1 Y1 E1" ++ nl; "G1 X2 Y2 E2" ++ nl]).
    + repeat constructor.
    + vm_compute. reflexivity.
Defined.




(** * Further properties of the rewriter *)

(** ** One turn of the loop *)

Lemma layer_change_returns nominal st line :
  layer_ok nominal line = true ->
  exists st', layer_change nominal st line = Return st'.
Proof.
  unfold layer_ok, layer_change, float_of.
  destruct (re_search "Z" line) as [tok|]; [|eauto].
  destruct (of_string tok) as [z|]; [|discriminate]. cbn [bind].
  destruct (div z nominal) as [q|]; cbn [bind]; [|discriminate].
  destruct (trunc q) as [l|]; cbn [bind]; [eauto|discriminate].
Qed.

Lemma layer_change_raises nominal st line :
  layer_ok nominal line = false ->
  exists e, layer_change nominal st line = Raise e.
Proof.
  unfold layer_ok, layer_change, float_of.
  destruct (re_search "Z" line) as [tok|]; [|discriminate].
  destruct (of_string tok) as [z|]; cbn [bind]; [|eauto].
  destruct (div z nominal) as [q|]; cbn [bind]; [|eauto].
  destruct (trunc q) as [l|]; cbn [bind]; [discriminate|eauto].
Qed.

Lemma perimeter_block_returns nominal tl st line :
  e_token_ok line = true ->
  exists st', perimeter_block nominal tl st line = Return st'.
Proof.
  intros Hok. unfold perimeter_block.
  destruct (motion st line); [|eauto].
  destruct (inside_perimeter_block st); cbn [negb]; [eauto|].
  destruct (adjust_e_returns
              (calculate_layer_settings (current_layer (open_block st)) tl)
              (perimeter_block_count (open_block st)) line Hok) as [line' ->].
  cbn [bind]. eauto.
Qed.

Lemma process_line_returns nominal tl st line :
  line_safe nominal line = true ->
  exists st', process_line nominal tl st line = Return st'.
Proof.
  unfold line_safe, process_line.
  destruct (startswith line "G1 Z"); intros H.
  - apply layer_change_returns, H.
  - apply perimeter_block_returns, H.
Qed.

(** What one turn does to the flag, to the counter and to the output. *)
Lemma perimeter_block_step nominal tl st line st' :
  perimeter_block nominal tl st line = Return st' ->
  (inside_perimeter_block st = false -> inside_perimeter_block st' = false) /\
  exists added,
    modified_lines st' = (modified_lines st ++ added)%list /\
    Z.of_nat (List.length added) =
    1 + (perimeter_block_count st' - perimeter_block_count st).
Proof.
  unfold perimeter_block.
  destruct (motion st line).
  - destruct (inside_perimeter_block st); cbn [negb].
    + intros [= <-]. fields. split; [auto|].
      exists [line]. split; [reflexivity|]. cbn [List.length]. lia.
    + destruct (adjust_e _ _ line) as [l|]; cbn [bind]; [|discriminate].
      intros [= <-]. fields. split; [auto|].
      eexists [_; l]. rewrite <- app_assoc. split; [reflexivity|].
      cbn [List.length]. lia.
  - intros [= <-]. fields. split; [auto|].
    exists [line]. split; [reflexivity|]. cbn [List.length]. lia.
Qed.

Lemma process_line_step nominal tl st line st' :
  process_line nominal tl st line = Return st' ->
  (inside_perimeter_block st = false -> inside_perimeter_block st' = false) /\
  (0 <= perimeter_block_count st ->
   0 <= perimeter_block_count st' <= perimeter_block_count st + 1) /\
  exists added,
    modified_lines st' = (modified_lines st ++ added)%list /\
    (1 <= List.length added <= 2)%nat /\
    (startswith line "G1 Z" = false ->
     Z.of_nat (List.length added) =
     1 + (perimeter_block_count st' - perimeter_block_count st)).
Proof.
  intros H. destruct (startswith line "G1 Z") eqn:E.
  - rewrite (process_line_layer _ _ _ _ E) in H.
    destruct (layer_change_frame _ _ _ _ H) as (_ & Hi & Hm & Hc).
    split; [congruence|]. split.
    + destruct (re_search "Z" line); [lia|]. subst st'. fields. lia.
    + exists [line]. split; [exact Hm|]. split; [cbn [List.length]; lia|discriminate].
  - pose proof (process_line_keeps_layer _ _ _ _ _ E H) as (_ & _ & Hc).
    rewrite (process_line_other _ _ _ _ E) in H.
    destruct (perimeter_block_step _ _ _ _ _ H) as (Hi & added & Hm & Hl).
    destruct (detect_type_frame st line) as (_ & _ & Fc & Fm).
    rewrite Fc in Hl. rewrite Fm in Hm.
    split; [intros Hs; apply Hi, detect_type_inside, Hs|].
    split; [lia|].
    exists added. split; [exact Hm|]. split; [lia|intros _; exact Hl].
Qed.

(** The count of layers of line 65 reaches [calculate_layer_settings] only,
    which ignores it. *)
Lemma process_line_total_layers nominal tl tl' st line :
  process_line nominal tl st line = process_line nominal tl' st line.
Proof. reflexivity. Qed.

Lemma process_lines_total_layers nominal tl tl' lines : forall st,
  process_lines nominal tl st lines = process_lines nominal tl' st lines.
Proof.
  induction lines as [|line rest IH]; intros st; [reflexivity|].
  cbn [process_lines]. rewrite (process_line_total_layers nominal tl tl').
  destruct (process_line nominal tl' st line); cbn [bind]; [apply IH|reflexivity].
Qed.

Lemma process_lines_app nominal tl l1 l2 : forall st,
  process_lines nominal tl st (l1 ++ l2) =
  (do st1 <- process_lines nominal tl st l1 ;; process_lines nominal tl st1 l2).
Proof.
  induction l1 as [|line rest IH]; intros st; [reflexivity|].
  cbn [process_lines List.app].
  destruct (process_line nominal tl st line); cbn [bind]; [apply IH|reflexivity].
Qed.

(** The invariants of a scan. *)
Lemma process_lines_step nominal tl lines : forall st st',
  process_lines nominal tl st lines = Return st' ->
  (inside_perimeter_block st = false -> inside_perimeter_block st' = false) /\
  (0 <= perimeter_block_count st ->
   0 <= perimeter_block_count st'
   <= perimeter_block_count st + Z.of_nat (List.length lines)) /\
  exists added,
    modified_lines st' = (modified_lines st ++ added)%list /\
    (List.length lines <= List.length added <= 2 * List.length lines)%nat /\
    (Forall not_layer_change lines ->
     Z.of_nat (List.length added) =
     Z.of_nat (List.length lines)
     + (perimeter_block_count st' - perimeter_block_count st)).
Proof.
  induction lines as [|line rest IH]; intros st st' H.
  - injection H as <-. split; [auto|]. split; [cbn [List.length]; lia|].
    exists []. rewrite app_nil_r. split; [reflexivity|].
    split; [cbn [List.length]; lia|].
    intros _. cbn [List.length]. lia.
  - cbn [process_lines] in H.
    destruct (process_line nominal tl st line) as [st1|] eqn:E; cbn [bind] in H;
      [|discriminate].
    destruct (process_line_step _ _ _ _ _ E) as (Hi & Hc & a1 & Hm1 & Hl1 & Hx1).
    destruct (IH _ _ H) as (Hi' & Hc' & a2 & Hm2 & Hl2 & Hx2).
    split; [auto|]. split.
    + intros H0. specialize (Hc H0). destruct Hc as [Hc0 Hc1].
      specialize (Hc' Hc0). cbn [List.length]. lia.
    + exists (a1 ++ a2)%list. rewrite Hm2, Hm1, <- app_assoc.
      split; [reflexivity|]. rewrite length_app. cbn [List.length].
      split; [lia|].
      intros HF. inversion HF as [|? ? Hline Hrest]; subst.
      specialize (Hx1 Hline). specialize (Hx2 Hrest). lia.
Qed.

(** ** The size of the output and the state of a scan *)

(** X1: no line is dropped and at most one line is put before each one: the
    output has at least as many lines as the input and at most twice as
    many. *)
Theorem output_length_bounds lines nominal em out :
  process_gcode lines nominal em = Return out ->
  (List.length lines <= List.length out <= 2 * List.length lines)%nat.
Proof.
  unfold process_gcode.
  destruct (process_lines nominal (count_layers lines) initial lines) as [st|] eqn:E;
    cbn [bind]; [|discriminate].
  intros [= <-].
  destruct (process_lines_step _ _ _ _ _ E) as (_ & _ & added & Hm & Hl & _).
  rewrite Hm. exact Hl.
Qed.

Lemma output_length_bounds_witness :
  (List.length [";TYPE:Perimeter" ++ nl; "G1 X1 Y1 E1" ++ nl]
   <= List.length [";TYPE:Perimeter" ++ nl;
                   "G1 Z0.030 ; Shifted Z for block #1" ++ nl;
                   "G1 X1 Y1 E1.00000 ; Adjusted E for layer settings, block #1" ++ nl]
   <= 2 * List.length [";TYPE:Perimeter" ++ nl; "G1 X1 Y1 E1" ++ nl])%nat.
Proof.
  apply (output_length_bounds [";TYPE:Perimeter" ++ nl; "G1 X1 Y1 E1" ++ nl]
           (literal "0.2") (literal "1")).
  vm_compute. reflexivity.
Defined.

(** X2: after every line of a run [inside_perimeter_block] is [False] again,
    so a block never spans two lines and the branch that continues an open
    block never runs; the block counter is never negative and never above
    the number of lines read. *)
Theorem scan_invariants nominal tl lines st :
  process_lines nominal tl initial lines = Return st ->
  inside_perimeter_block st = false /\
  0 <= perimeter_block_count st <= Z.of_nat (List.length lines).
Proof.
  intros H.
  destruct (process_lines_step _ _ _ _ _ H) as (Hi & Hc & _).
  split; [apply Hi; reflexivity|]. apply Hc. cbn. lia.
Qed.

Lemma scan_invariants_witness :
  let lines := [";TYPE:Inner wall" ++ nl; "G1 X1 Y1 E1" ++ nl; "G1 X2 Y2 E2" ++ nl] in
  let st := {| current_layer := 0;
               current_z := S754_zero false;
               perimeter_type := Some internal;
               perimeter_block_count := 2;
               inside_perimeter_block := false;
               modified_lines :=
                 [";TYPE:Inner wall" ++ nl;
                  "G1 Z0.030 ; Shifted Z for block #1" ++ nl;
                  "G1 X1 Y1 E1.00000 ; Adjusted E for layer settings, block #1"
                  ++ nl;
                  "G1 Z0.000 ; Reset Z for block #2" ++ nl;
                  "G1 X2 Y2 E2.00000 ; Adjusted E for layer settings, block #2"
                  ++ nl] |} in
  process_lines (literal "0.2") 0 initial lines = Return st /\
  inside_perimeter_block st = false /\
  0 <= perimeter_block_count st <= Z.of_nat (List.length lines).
Proof.
  cbv zeta.
  assert (H : process_lines (literal "0.2") 0 initial
                [";TYPE:Inner wall" ++ nl; "G1 X1 Y1 E1" ++ nl; "G1 X2 Y2 E2" ++ nl] =
              Return {| current_layer := 0;
                        current_z := S754_zero false;
                        perimeter_type := Some internal;
                        perimeter_block_count := 2;
                        inside_perimeter_block := false;
                        modified_lines :=
                          [";TYPE:Inner wall" ++ nl;
                           "G1 Z0.030 ; Shifted Z for block #1" ++ nl;
                           "G1 X1 Y1 E1.00000 ; Adjusted E for layer settings, block #1"
                           ++ nl;
                           "G1 Z0.000 ; Reset Z for block #2" ++ nl;
                           "G1 X2 Y2 E2.00000 ; Adjusted E for layer settings, block #2"
                           ++ nl] |})
    by (vm_compute; reflexivity).
  split; [exact H|].
  exact (scan_invariants (literal "0.2") 0 _ _ H).
Defined.

(** X3: within one layer every block costs one line: over lines with no
    layer change among them, the output grows by the number of lines read
    plus the rise of the block counter. *)
Theorem single_layer_inserted_lines nominal tl lines st :
  Forall not_layer_change lines ->
  process_lines nominal tl initial lines = Return st ->
  Z.of_nat (List.length (modified_lines st)) =
  Z.of_nat (List.length lines) + perimeter_block_count st.
Proof.
  intros HF H.
  destruct (process_lines_step _ _ _ _ _ H) as (_ & _ & added & Hm & _ & Hx).
  rewrite Hm. cbn [initial modified_lines List.app].
  rewrite (Hx HF). cbn [initial perimeter_block_count]. lia.
Qed.

Lemma single_layer_inserted_lines_witness :
  let st := {| current_layer := 0;
               current_z := S754_zero false;
               perimeter_type := Some internal;
               perimeter_block_count := 2;
               inside_perimeter_block := false;
               modified_lines :=
                 [";TYPE:Perimeter" ++ nl;
                  "G1 Z0.030 ; Shifted Z for block #1" ++ nl;
                  "G1 X1 Y1 E" ++ nl;
                  "G1 Z0.000 ; Reset Z for block #2" ++ nl;
                  "G1 X2 Y2 E" ++ nl] |} in
  Z.of_nat (List.length (modified_lines st)) = Z.of_nat 3 + perimeter_block_count st.
Proof.
  cbv zeta.
  apply (single_layer_inserted_lines (literal "0.2") 0
           [";TYPE:Perimeter" ++ nl; "G1 X1 Y1 E" ++ nl; "G1 X2 Y2 E" ++ nl]).
  - repeat constructor.
  - vm_compute. reflexivity.
Defined.

(** X4: the scan works line by line and keeps what it has written. An
    exception met in a first part of the lines is the exception of the whole
    run; and if the first part alone returns, its output is the start of the
    output of the whole, which has at least one more line for each further
    line. *)
Theorem prefix_of_run lines rest nominal em :
  (forall e, process_gcode lines nominal em = Raise e ->
             process_gcode (lines ++ rest) nominal em = Raise e) /\
  (forall out1 out,
     process_gcode lines nominal em = Return out1 ->
     process_gcode (lines ++ rest) nominal em = Return out ->
     exists added, out = (out1 ++ added)%list /\
                   (List.length rest <= List.length added)%nat).
Proof.
  unfold process_gcode.
  rewrite (process_lines_total_layers nominal (count_layers (lines ++ rest))
             (count_layers lines)).
  rewrite process_lines_app.
  destruct (process_lines nominal (count_layers lines) initial lines) as [st1|e1];
    cbn [bind]; split.
  - discriminate.
  - intros out1 out [= <-].
    destruct (process_lines nominal (count_layers lines) st1 rest) as [st2|] eqn:E;
      cbn [bind]; [|discriminate].
    intros [= <-].
    destruct (process_lines_step _ _ _ _ _ E) as (_ & _ & added & Hm & Hl & _).
    exists added. split; [exact Hm|lia].
  - intros e [= <-]. reflexivity.
  - discriminate.
Qed.

Lemma prefix_of_run_witness :
  process_gcode ([";TYPE:Perimeter" ++ nl; "G1 X1 Y1 E-" ++ nl] ++ ["G1 Z0.2" ++ nl])
                (literal "0.2") (literal "1") = Raise ValueError.
Proof.
  apply (proj1 (prefix_of_run [";TYPE:Perimeter" ++ nl; "G1 X1 Y1 E-" ++ nl]
                  ["G1 Z0.2" ++ nl] (literal "0.2") (literal "1"))).
  vm_compute. reflexivity.
Defined.

(** ** When a run returns and when it raises *)

Lemma process_lines_returns nominal tl lines : forall st,
  Forall (fun l => line_safe nominal l = true) lines ->
  exists st', process_lines nominal tl st lines = Return st'.
Proof.
  induction lines as [|line rest IH]; intros st HF; [cbn; eauto|].
  inversion HF as [|? ? Hline Hrest]; subst. cbn [process_lines].
  destruct (process_line_returns nominal tl st line Hline) as [st1 ->].
  cbn [bind]. apply IH, Hrest.
Qed.

Lemma process_lines_raises nominal tl lines line : forall st,
  In line lines ->
  startswith line "G1 Z" = true ->
  layer_ok nominal line = false ->
  exists e, process_lines nominal tl st lines = Raise e.
Proof.
  induction lines as [|l rest IH]; intros st Hin HZ Hbad; [destruct Hin|].
  cbn [process_lines].
  destruct (process_line nominal tl st l) as [st1|e] eqn:E; cbn [bind]; [|eauto].
  destruct Hin as [->|Hin]; [|apply IH; assumption].
  rewrite (process_line_layer _ _ _ _ HZ) in E.
  destruct (layer_change_raises nominal st line Hbad) as [e He]. congruence.
Qed.

(** Lines that leave the output as it is: no internal marker, and layer
    changes that raise nothing. *)
Lemma process_lines_copy nominal tl lines : forall st,
  Forall no_internal_marker lines ->
  Forall (fun l => startswith l "G1 Z" = true -> layer_ok nominal l = true) lines ->
  is_internal (perimeter_type st) = false ->
  exists st',
    process_lines nominal tl st lines = Return st' /\
    modified_lines st' = (modified_lines st ++ lines)%list /\
    is_internal (perimeter_type st') = false.
Proof.
  induction lines as [|line rest IH]; intros st HM HL Hp.
  - exists st. cbn. rewrite app_nil_r. auto.
  - inversion HM as [|? ? [Hm1 Hm2] Hmrest]; subst.
    inversion HL as [|? ? Hline Hlrest]; subst.
    cbn [process_lines].
    assert (exists st1, process_line nominal tl st line = Return st1 /\
                        modified_lines st1 = (modified_lines st ++ [line])%list /\
                        is_internal (perimeter_type st1) = false)
      as (st1 & E & Hout & Hp1).
    { destruct (startswith line "G1 Z") eqn:HZ.
      - rewrite (process_line_layer _ _ _ _ HZ).
        destruct (layer_change_returns nominal st line (Hline eq_refl)) as [st1 E].
        destruct (layer_change_frame _ _ _ _ E) as (Ht & _ & Hout & _).
        exists st1. rewrite Ht. auto.
      - rewrite (process_line_other _ _ _ _ HZ).
        pose proof (detect_type_not_internal st line Hm1 Hm2 Hp) as Hp'.
        rewrite perimeter_block_other by (apply motion_needs_internal, Hp').
        destruct (detect_type_frame st line) as (_ & _ & _ & Fm).
        eexists. split; [reflexivity|]. fields. rewrite Fm. auto. }
    rewrite E. cbn [bind].
    destruct (IH st1 Hmrest Hlrest Hp1) as (st' & Hr & Hout' & Hp').
    exists st'. split; [exact Hr|]. rewrite Hout', Hout, <- app_assoc. auto.
Qed.

(** X5: outside internal perimeters the rewriter changes nothing. If no line
    has an internal marker and every layer-change line has a Z the code can
    turn into a layer (or no Z token), the output is the input, outer walls
    and layer changes included. *)
Theorem no_internal_marker_unchanged lines nominal em :
  Forall no_internal_marker lines ->
  Forall (fun l => startswith l "G1 Z" = true -> layer_ok nominal l = true) lines ->
  process_gcode lines nominal em = Return lines.
Proof.
  intros HM HL. unfold process_gcode.
  destruct (process_lines_copy nominal (count_layers lines) lines initial HM HL eq_refl)
    as (st' & -> & Hout & _).
  cbn [bind]. rewrite Hout. reflexivity.
Qed.

Lemma no_internal_marker_unchanged_witness :
  process_gcode ["G1 Z0.2" ++ nl; ";TYPE:Outer wall" ++ nl; "G1 X1 Y1 E1" ++ nl;
                 ";TYPE:Solid infill" ++ nl; "G1 X2 Y2 E.." ++ nl; "G1 Z" ++ nl]
                (literal "0.2") (literal "1")
  = Return ["G1 Z0.2" ++ nl; ";TYPE:Outer wall" ++ nl; "G1 X1 Y1 E1" ++ nl;
            ";TYPE:Solid infill" ++ nl; "G1 X2 Y2 E.." ++ nl; "G1 Z" ++ nl].
Proof.
  apply no_internal_marker_unchanged.
  - repeat constructor.
  - repeat constructor.
Defined.

(** X6: a run returns when every layer-change line has a Z that the code can
    turn into a layer (or no Z token) and every other line has an E token
    that is a number (or none). *)
Theorem safe_lines_return lines nominal em :
  Forall (fun l => line_safe nominal l = true) lines ->
  exists out, process_gcode lines nominal em = Return out.
Proof.
  intros HF. unfold process_gcode.
  destruct (process_lines_returns nominal (count_layers lines) lines initial HF)
    as [st ->].
  cbn [bind]. eauto.
Qed.

Lemma safe_lines_return_witness :
  exists out,
    process_gcode ["G1 Z0.2" ++ nl; ";TYPE:Perimeter" ++ nl; "G1 X1 Y1 E1" ++ nl;
                   "G1 X2 Y2 E" ++ nl]
                  (literal "0.2") (literal "1") = Return out.
Proof.
  apply safe_lines_return. repeat constructor.
Defined.

(** X7: one layer-change line whose Z the code cannot turn into a layer, at
    any place in the file, makes the whole run raise: whatever the other
    lines are, nothing is written. *)
Theorem bad_layer_change_aborts lines line nominal em :
  In line lines ->
  startswith line "G1 Z" = true ->
  layer_ok nominal line = false ->
  exists e, process_gcode lines nominal em = Raise e.
Proof.
  intros Hin HZ Hbad. unfold process_gcode.
  destruct (process_lines_raises nominal (count_layers lines) lines line initial
              Hin HZ Hbad) as [e ->].
  cbn [bind]. eauto.
Qed.

Lemma bad_layer_change_aborts_witness :
  exists e,
    process_gcode ["G1 Z0.2" ++ nl; ";TYPE:Perimeter" ++ nl; "G1 Z-" ++ nl]
                  (literal "0.2") (literal "1") = Raise e.
Proof.
  apply (bad_layer_change_aborts _ ("G1 Z-" ++ nl)).
  - right. right. left. reflexivity.
  - reflexivity.
  - reflexivity.
Defined.

(** With a layer height of zero no exception but these two can arise. *)
Lemma process_line_zero_height s tl st line e :
  process_line (S754_zero s) tl st line = Raise e ->
  e = ValueError \/ e = ZeroDivisionError.
Proof.
  unfold process_line. destruct (startswith line "G1 Z").
  - unfold layer_change, float_of.
    destruct (re_search "Z" line) as [tok|]; [|discriminate].
    destruct (of_string tok) as [z|]; cbn [bind div]; intros [= <-]; auto.
  - unfold perimeter_block.
    destruct (motion _ line); [|discriminate].
    destruct (inside_perimeter_block _); cbn [negb]; [discriminate|].
    unfold adjust_e, float_of.
    destruct (re_search "E" line) as [tok|]; [|discriminate].
    destruct (of_string tok) as [v|]; cbn [bind].
    + rewrite div_by_0_4. discriminate.
    + intros [= <-]. auto.
Qed.

Lemma process_lines_zero_height s tl lines e : forall st,
  process_lines (S754_zero s) tl st lines = Raise e ->
  e = ValueError \/ e = ZeroDivisionError.
Proof.
  induction lines as [|line rest IH]; intros st; [discriminate|].
  cbn [process_lines].
  destruct (process_line (S754_zero s) tl st line) as [st1|e1] eqn:E; cbn [bind].
  - apply IH.
  - intros [= <-]. apply (process_line_zero_height _ _ _ _ _ E).
Qed.

Lemma layer_ok_zero_height s line :
  re_search "Z" line <> None -> layer_ok (S754_zero s) line = false.
Proof.
  unfold layer_ok. destruct (re_search "Z" line) as [tok|]; [|congruence].
  intros _. destruct (of_string tok); reflexivity.
Qed.

(** X8: with a nominal layer height of zero (either sign), a file that has a
    layer-change line with a Z token is never rewritten: the run raises
    [ZeroDivisionError], or [ValueError] if a malformed number comes first. *)
Theorem zero_layer_height_aborts lines line s em :
  In line lines ->
  startswith line "G1 Z" = true ->
  re_search "Z" line <> None ->
  process_gcode lines (S754_zero s) em = Raise ValueError \/
  process_gcode lines (S754_zero s) em = Raise ZeroDivisionError.
Proof.
  intros Hin HZ Htok. unfold process_gcode.
  destruct (process_lines_raises (S754_zero s) (count_layers lines) lines line initial
              Hin HZ (layer_ok_zero_height s line Htok)) as [e He].
  rewrite He. cbn [bind].
  destruct (process_lines_zero_height _ _ _ _ _ He) as [-> | ->]; auto.
Qed.

Lemma zero_layer_height_aborts_witness :
  process_gcode ["; start" ++ nl; "G1 Z0.2" ++ nl] (S754_zero false) (literal "1")
  = Raise ValueError \/
  process_gcode ["; start" ++ nl; "G1 Z0.2" ++ nl] (S754_zero false) (literal "1")
  = Raise ZeroDivisionError.
Proof.
  apply (zero_layer_height_aborts _ ("G1 Z0.2" ++ nl)).
  - right. left. reflexivity.
  - reflexivity.
  - vm_compute. discriminate.
Defined.

(** ** Reading and writing the file *)



Lemma string_app_nil_r (s : string) : s ++ "" = s.
Proof. induction s as [|c s IH]; [reflexivity|]. cbn. now rewrite IH. Qed.

Lemma string_app_assoc (a b c : string) : (a ++ b) ++ c = a ++ (b ++ c).
Proof. induction a as [|x a IH]; [reflexivity|]. cbn. now rewrite IH. Qed.


Lemma terminated_cons c l :
  Ascii.eqb c "010" = false -> terminated l -> terminated (String c l).
Proof.
  intros Hc (body & -> & Hb). exists (String c body). split; [reflexivity|].
  unfold nl_free in *. cbn [lacks]. now rewrite Hc, Hb.
Qed.

Lemma readlines_file_lines s : file_lines (readlines s).
Proof.
  induction s as [|c s IH]; [exact I|]. cbn [readlines].
  destruct (Ascii.eqb c "010") eqn:Hc.
  - apply Ascii.eqb_eq in Hc. subst c.
    assert (Ht : terminated (String "010" "")) by (exists ""; split; reflexivity).
    destruct (readlines s) as [|l ls]; cbn [file_lines]; auto.
  - destruct (readlines s) as [|l ls].
    + right. split; [discriminate|]. unfold nl_free. cbn [lacks]. now rewrite Hc.
    + destruct ls as [|l' ls].
      * cbn [file_lines] in *. destruct IH as [Ht | [Hne Hf]].
        -- left. now apply terminated_cons.
        -- right. split; [discriminate|].
           unfold nl_free in *. cbn [lacks]. now rewrite Hc, Hf.
      * cbn [file_lines] in *. destruct IH as [Ht Hr].
        split; [now apply terminated_cons|exact Hr].
Qed.

Lemma readlines_terminated l t :
  terminated l -> readlines (l ++ t) = l :: readlines t.
Proof.
  intros (body & -> & Hb). induction body as [|c body IH].
  - reflexivity.
  - unfold nl_free in Hb. cbn [lacks] in Hb. apply andb_true_iff in Hb.
    destruct Hb as [Hc Hb]. apply negb_true_iff in Hc.
    cbn [String.append readlines] in *. rewrite Hc, (IH Hb). reflexivity.
Qed.

Lemma readlines_one_line l :
  l <> "" -> nl_free l = true -> readlines l = [l].
Proof.
  induction l as [|c l IH]; [congruence|]. intros _ Hf.
  unfold nl_free in *. cbn [lacks] in Hf. apply andb_true_iff in Hf.
  destruct Hf as [Hc Hf]. apply negb_true_iff in Hc.
  cbn [readlines]. rewrite Hc. destruct l as [|c' l]; [reflexivity|].
  rewrite IH by (discriminate || exact Hf). reflexivity.
Qed.

Lemma readlines_writelines lines :
  file_lines lines -> readlines (writelines lines) = lines.
Proof.
  induction lines as [|l rest IH]; [reflexivity|]. intros H.
  destruct rest as [|l' rest].
  - cbn [writelines fold_right]. rewrite string_app_nil_r.
    destruct H as [Ht | [Hne Hf]].
    + rewrite <- (string_app_nil_r l) at 1. rewrite (readlines_terminated _ _ Ht).
      reflexivity.
    + apply readlines_one_line; assumption.
  - destruct H as [Ht Hr].
    change (writelines (l :: l' :: rest)) with (l ++ writelines (l' :: rest)).
    rewrite (readlines_terminated _ _ Ht), (IH Hr). reflexivity.
Qed.

(** ** The characters the rewriter writes *)

Lemma all_chars_app P a b : all_chars P (a ++ b) = all_chars P a && all_chars P b.
Proof.
  induction a as [|c a IH]; [reflexivity|]. cbn. now rewrite IH, andb_assoc.
Qed.

Lemma all_chars_weaken (P Q : ascii -> bool) s :
  (forall c, P c = true -> Q c = true) -> all_chars P s = true -> all_chars Q s = true.
Proof.
  intros HPQ. induction s as [|c s IH]; [reflexivity|]. cbn.
  intros H. apply andb_true_iff in H. destruct H as [Hc Hs].
  now rewrite (HPQ _ Hc), (IH Hs).
Qed.

Lemma lacks_all_chars c0 s : lacks c0 s = all_chars (fun c => negb (Ascii.eqb c c0)) s.
Proof. induction s as [|c s IH]; [reflexivity|]. cbn. now rewrite IH. Qed.

Lemma lacks_app c0 a b : lacks c0 (a ++ b) = lacks c0 a && lacks c0 b.
Proof. rewrite !lacks_all_chars. apply all_chars_app. Qed.

Lemma digits_of_uint d : all_chars is_digit (NilEmpty.string_of_uint d) = true.
Proof. induction d; cbn; auto. Qed.

Lemma digits_of_uint_zero d :
  all_chars is_digit (NilZero.string_of_uint d) = true /\
  NilZero.string_of_uint d <> "".
Proof.
  destruct d; cbn; (split; [|discriminate]); try reflexivity;
    apply digits_of_uint.
Qed.

Lemma dec_string_digits n :
  all_chars is_digit (dec_string n) = true /\ dec_string n <> "".
Proof. apply digits_of_uint_zero. Qed.

Lemma zeros_digits n : all_chars is_digit (zeros n) = true.
Proof. induction n as [|n IH]; [reflexivity|exact IH]. Qed.

Lemma digit_is_num_char c : is_digit c = true -> is_num_char c = true.
Proof.
  unfold is_digit, is_num_char. intros ->. now rewrite orb_true_r.
Qed.

Lemma num_char_is_number_char c : is_num_char c = true -> is_number_char c = true.
Proof. unfold is_number_char. now intros ->. Qed.

Lemma fixed_digits_chars d n : all_chars is_num_char (fixed_digits d n) = true.
Proof.
  unfold fixed_digits. rewrite all_chars_app.
  destruct (dec_string_digits (n / 10 ^ Z.of_nat d)) as [Ha _].
  rewrite (all_chars_weaken _ _ _ digit_is_num_char Ha). cbn [andb].
  destruct d as [|d]; [reflexivity|].
  change ("." ++ ?x) with (String "." x). cbn [all_chars].
  rewrite all_chars_app.
  destruct (dec_string_digits (n mod 10 ^ Z.of_nat (S d))) as [Hb _].
  rewrite (all_chars_weaken _ _ _ digit_is_num_char (zeros_digits _)).
  rewrite (all_chars_weaken _ _ _ digit_is_num_char Hb). reflexivity.
Qed.

Lemma sign_string_chars s : all_chars is_num_char (sign_string s) = true.
Proof. destruct s; reflexivity. Qed.

(** A formatted finite number is made of the characters of the patterns. *)
Lemma format_f_finite_chars d x :
  is_finite x = true -> all_chars is_num_char (format_f d x) = true.
Proof.
  destruct x as [s|s| |s m e]; try discriminate; intros _; unfold format_f;
    rewrite all_chars_app, sign_string_chars, fixed_digits_chars; reflexivity.
Qed.

Lemma format_f_chars d x : all_chars is_number_char (format_f d x) = true.
Proof.
  destruct x as [s|s| |s m e].
  - apply (all_chars_weaken _ _ _ num_char_is_number_char).
    now apply format_f_finite_chars.
  - destruct s; reflexivity.
  - reflexivity.
  - apply (all_chars_weaken _ _ _ num_char_is_number_char).
    now apply format_f_finite_chars.
Qed.

Lemma str_int_chars n : all_chars is_num_char (str_int n) = true.
Proof.
  unfold str_int, NilZero.string_of_int.
  destruct (Z.to_int n) as [d|d].
  - apply (all_chars_weaken _ _ _ digit_is_num_char), digits_of_uint_zero.
  - change (all_chars is_num_char (String "-" (NilZero.string_of_uint d)) = true).
    cbn [all_chars]. change (is_num_char "-") with true. cbn [andb].
    apply (all_chars_weaken _ _ _ digit_is_num_char), digits_of_uint_zero.
Qed.

Lemma number_char_no_break c0 c :
  line_break c0 -> is_number_char c = true -> negb (Ascii.eqb c c0) = true.
Proof.
  intros Hb Hc. apply negb_true_iff, Ascii.eqb_neq. intros ->.
  destruct Hb as [-> | ->]; discriminate Hc.
Qed.

Lemma format_f_lacks c0 d x : line_break c0 -> lacks c0 (format_f d x) = true.
Proof.
  intros Hb. rewrite lacks_all_chars.
  apply (all_chars_weaken is_number_char); [|apply format_f_chars].
  intros c. now apply number_char_no_break.
Qed.

Lemma str_int_lacks c0 n : line_break c0 -> lacks c0 (str_int n) = true.
Proof.
  intros Hb. rewrite lacks_all_chars.
  apply (all_chars_weaken is_num_char); [|apply str_int_chars].
  intros c Hc. apply (number_char_no_break c0 c Hb), num_char_is_number_char, Hc.
Qed.

(** The inserted line and the comment are one line each. *)
Lemma z_line_body z_shift ls z n :
  exists body, z_line z_shift ls z n = body ++ nl /\
               forall c0, line_break c0 -> lacks c0 body = true.
Proof.
  rewrite z_line_parity.
  set (f := format_f 3 _). set (note := if Z.odd n then _ else _).
  exists ("G1 Z" ++ f ++ note ++ str_int n). split.
  - rewrite !string_app_assoc. reflexivity.
  - intros c0 Hb. rewrite !lacks_app.
    unfold f. rewrite (format_f_lacks c0 3 _ Hb), (str_int_lacks c0 n Hb).
    unfold note. destruct Hb as [-> | ->]; destruct (Z.odd n); reflexivity.
Qed.

Lemma e_comment_body n :
  exists body, e_comment n = body ++ nl /\
               forall c0, line_break c0 -> lacks c0 body = true.
Proof.
  unfold e_comment.
  exists (" ; Adjusted E for layer settings, block #" ++ str_int n). split.
  - rewrite !string_app_assoc. reflexivity.
  - intros c0 Hb. rewrite lacks_app, (str_int_lacks c0 n Hb).
    destruct Hb as [-> | ->]; reflexivity.
Qed.

Lemma lacks_nl_last s : nl_free s = true -> nl_last s = true.
Proof.
  unfold nl_free. induction s as [|c s IH]; [reflexivity|]. cbn.
  intros H. apply andb_true_iff in H. destruct H as [Hc Hs].
  now rewrite Hc, (IH Hs).
Qed.

Lemma terminated_nl_last l : terminated l -> nl_last l = true.
Proof.
  intros (body & -> & Hb). unfold nl_free in Hb.
  induction body as [|c body IH]; [reflexivity|].
  cbn [lacks] in Hb. apply andb_true_iff in Hb. destruct Hb as [Hc Hb].
  cbn [String.append nl_last]. now rewrite Hc, (IH Hb).
Qed.

Lemma nl_last_app repl s :
  nl_free repl = true -> nl_last s = true -> nl_last (repl ++ s) = true.
Proof.
  unfold nl_free. intros Hr Hs. induction repl as [|c r IH]; [exact Hs|].
  cbn [lacks] in Hr. apply andb_true_iff in Hr. destruct Hr as [Hc Hr].
  cbn [String.append nl_last]. now rewrite Hc, (IH Hr).
Qed.

Lemma re_sub_from_lacks c0 k repl s : forall skip,
  lacks c0 repl = true -> lacks c0 s = true ->
  lacks c0 (re_sub_from k repl skip s) = true.
Proof.
  induction s as [|c s IH]; intros skip Hr Hs; [reflexivity|].
  cbn [lacks] in Hs. apply andb_true_iff in Hs. destruct Hs as [Hc Hs].
  cbn [re_sub_from].
  destruct (skip && is_num_char c); [now apply IH|].
  destruct (Ascii.eqb c k && starts_num s).
  - rewrite lacks_app, Hr. now apply IH.
  - cbn [lacks]. rewrite Hc. now apply IH.
Qed.

Lemma re_sub_from_nl_last k repl s : forall skip,
  nl_free repl = true -> nl_last s = true ->
  nl_last (re_sub_from k repl skip s) = true.
Proof.
  induction s as [|c s IH]; intros skip Hr Hs; [reflexivity|].
  cbn [nl_last] in Hs. apply andb_true_iff in Hs. destruct Hs as [Hc Hs].
  cbn [re_sub_from].
  destruct (skip && is_num_char c); [now apply IH|].
  destruct (Ascii.eqb c k && starts_num s).
  - apply nl_last_app; [exact Hr|now apply IH].
  - cbn [nl_last]. rewrite (IH false Hr Hs), andb_true_r.
    apply orb_true_iff in Hc. destruct Hc as [Hc|Hc]; [now rewrite Hc|].
    destruct s; [|discriminate]. cbn. apply orb_true_r.
Qed.

Lemma lstrip_lacks c0 s : lacks c0 s = true -> lacks c0 (lstrip s) = true.
Proof.
  induction s as [|c s IH]; [reflexivity|]. intros H. cbn [lstrip].
  destruct (is_space c); [|exact H].
  cbn [lacks] in H. apply andb_true_iff in H. now apply IH.
Qed.

Lemma rstrip_lacks c0 s : lacks c0 s = true -> lacks c0 (rstrip s) = true.
Proof.
  induction s as [|c s IH]; [reflexivity|]. intros H.
  cbn [lacks] in H. apply andb_true_iff in H. destruct H as [Hc Hs].
  specialize (IH Hs). cbn [rstrip].
  destruct (rstrip s) as [|c' r].
  - destruct (is_space c); [reflexivity|]. cbn [lacks]. now rewrite Hc.
  - cbn [lacks] in *. now rewrite Hc, IH.
Qed.

Lemma lstrip_nl_last s : nl_last s = true -> nl_last (lstrip s) = true.
Proof.
  induction s as [|c s IH]; [reflexivity|]. intros H. cbn [lstrip].
  destruct (is_space c); [|exact H].
  cbn [nl_last] in H. apply andb_true_iff in H. now apply IH.
Qed.

Lemma rstrip_nil s : rstrip s <> "" -> s <> "".
Proof. destruct s; [intros H; exact H|discriminate]. Qed.

Lemma rstrip_nl_free s : nl_last s = true -> nl_free (rstrip s) = true.
Proof.
  unfold nl_free. induction s as [|c s IH]; [reflexivity|]. intros H.
  cbn [nl_last] in H. apply andb_true_iff in H. destruct H as [Hc Hs].
  specialize (IH Hs). cbn [rstrip].
  destruct (rstrip s) as [|c' r] eqn:E.
  - destruct (is_space c) eqn:Hsp; [reflexivity|]. cbn [lacks].
    rewrite andb_true_r. apply negb_true_iff, Ascii.eqb_neq. intros ->.
    discriminate Hsp.
  - cbn [lacks] in *. rewrite IH, andb_true_r.
    apply orb_true_iff in Hc. destruct Hc as [Hc|Hc]; [exact Hc|].
    destruct s; [discriminate E|discriminate Hc].
Qed.

(** The line that [adjust_e] returns: the line it was given, or a new line
    that ends in its only ["\n"]. *)
Lemma adjust_e_line ls n line line' :
  adjust_e ls n line = Return line' ->
  line' = line \/
  exists body, line' = body ++ nl /\
               (nl_last line = true -> nl_free body = true) /\
               (cr_free line = true -> cr_free body = true).
Proof.
  unfold adjust_e, float_of.
  destruct (re_search "E" line) as [tok|]; [|intros [= <-]; auto].
  destruct (of_string tok) as [e|]; cbn [bind]; [|discriminate].
  rewrite div_by_0_4. cbn [bind]. intros [= <-]. right.
  destruct (e_comment_body n) as (cb & -> & Hcb).
  set (f := format_f 5 _).
  exists (strip (re_sub "E" ("E" ++ f) line) ++ cb). split.
  - rewrite string_app_assoc. reflexivity.
  - assert (Hrepl : forall c0, line_break c0 -> lacks c0 ("E" ++ f) = true).
    { intros c0 Hb. change ("E" ++ f) with (String "E" f). cbn [lacks].
      unfold f. rewrite (format_f_lacks c0 5 _ Hb).
      destruct Hb as [-> | ->]; reflexivity. }
    split; intros Hl.
    + unfold nl_free. rewrite lacks_app, (Hcb "010"%char (or_introl eq_refl)).
      rewrite andb_true_r. apply rstrip_nl_free, lstrip_nl_last.
      apply re_sub_from_nl_last; [|exact Hl].
      apply (Hrepl "010"%char). now left.
    + unfold cr_free. rewrite lacks_app, (Hcb "013"%char (or_intror eq_refl)).
      rewrite andb_true_r. apply rstrip_lacks, lstrip_lacks.
      apply re_sub_from_lacks; [|exact Hl].
      apply (Hrepl "013"%char). now right.
Qed.

(** What one turn adds to the output. *)
Lemma process_line_added nominal tl st line st' :
  process_line nominal tl st line = Return st' ->
  exists added,
    modified_lines st' = (modified_lines st ++ added)%list /\
    (added = [line] \/
     exists zl line',
       added = [zl; line'] /\
       (exists body, zl = body ++ nl /\
                     forall c0, line_break c0 -> lacks c0 body = true) /\
       (line' = line \/
        exists body, line' = body ++ nl /\
                     (nl_last line = true -> nl_free body = true) /\
                     (cr_free line = true -> cr_free body = true))).
Proof.
  intros H. destruct (startswith line "G1 Z") eqn:E.
  - rewrite (process_line_layer _ _ _ _ E) in H.
    destruct (layer_change_frame _ _ _ _ H) as (_ & _ & Hm & _).
    exists [line]. auto.
  - rewrite (process_line_other _ _ _ _ E) in H.
    destruct (detect_type_frame st line) as (_ & _ & _ & Fm). rewrite <- Fm.
    revert H. unfold perimeter_block.
    destruct (motion _ line); [|intros [= <-]; exists [line]; auto].
    destruct (inside_perimeter_block _); cbn [negb];
      [intros [= <-]; exists [line]; auto|].
    destruct (adjust_e _ _ line) as [l|] eqn:Ea; cbn [bind]; [|discriminate].
    intros [= <-]. eexists [_; l]. fields. rewrite <- app_assoc.
    split; [reflexivity|]. right. do 2 eexists. split; [reflexivity|].
    split; [apply z_line_body|apply (adjust_e_line _ _ _ _ Ea)].
Qed.

(** ** The lines of the output *)

Lemma file_lines_app a b :
  Forall terminated a -> file_lines b -> file_lines (a ++ b).
Proof.
  intros Ha Hb. induction Ha as [|l a Hl _ IH]; [exact Hb|].
  cbn [List.app]. destruct (a ++ b)%list as [|l' r] eqn:E.
  - left. exact Hl.
  - split; [exact Hl|exact IH].
Qed.

Lemma file_lines_head l l' rest :
  file_lines (l :: l' :: rest) -> terminated l /\ file_lines (l' :: rest).
Proof. intros H. exact H. Qed.

Lemma body_terminated body :
  nl_free body = true -> terminated (body ++ nl).
Proof. intros H. exists body. auto. Qed.

Lemma process_lines_file_lines nominal tl lines : forall st st',
  file_lines lines ->
  process_lines nominal tl st lines = Return st' ->
  exists added,
    modified_lines st' = (modified_lines st ++ added)%list /\ file_lines added.
Proof.
  induction lines as [|line rest IH]; intros st st' HF H.
  - injection H as <-. exists []. rewrite app_nil_r. split; [reflexivity|exact I].
  - cbn [process_lines] in H.
    destruct (process_line nominal tl st line) as [st1|] eqn:E; cbn [bind] in H;
      [|discriminate].
    destruct (process_line_added _ _ _ _ _ E) as (a1 & Hm1 & Hshape).
    destruct rest as [|l' rest].
    + injection H as <-. exists a1. split; [exact Hm1|].
      destruct Hshape as [-> | (zl & line' & -> & (zb & -> & Hzb) & Hl')];
        [exact HF|].
      split; [apply body_terminated, (Hzb "010"%char); now left|].
      destruct Hl' as [-> | (body & -> & Hb & _)]; [exact HF|].
      left. apply body_terminated, Hb.
      destruct HF as [Ht | [_ Hf]];
        [now apply terminated_nl_last|now apply lacks_nl_last].
    + destruct (file_lines_head _ _ _ HF) as [Ht Hrest].
      destruct (IH _ _ Hrest H) as (a2 & Hm2 & Hf2).
      exists (a1 ++ a2)%list. rewrite Hm2, Hm1, <- app_assoc.
      split; [reflexivity|]. apply file_lines_app; [|exact Hf2].
      destruct Hshape as [-> | (zl & line' & -> & (zb & -> & Hzb) & Hl')];
        [repeat constructor; exact Ht|].
      constructor; [apply body_terminated, (Hzb "010"%char); now left|].
      constructor; [|constructor].
      destruct Hl' as [-> | (body & -> & Hb & _)]; [exact Ht|].
      apply body_terminated, Hb. now apply terminated_nl_last.
Qed.

Lemma process_gcode_file_lines lines nominal em out :
  file_lines lines ->
  process_gcode lines nominal em = Return out ->
  file_lines out.
Proof.
  intros HF. unfold process_gcode.
  destruct (process_lines nominal (count_layers lines) initial lines) as [st|] eqn:E;
    cbn [bind]; [|discriminate].
  intros [= <-].
  destruct (process_lines_file_lines _ _ _ _ _ HF E) as (added & Hm & Hf).
  rewrite Hm. exact Hf.
Qed.

(** X10: the output keeps the shape of a list of lines. If every input line
    ends in its only ["\n"] (the last one may have none), so does every
    output line, the inserted and the rewritten ones included, and the
    written file is read back as exactly the lines that were written. *)
Theorem output_keeps_line_structure lines nominal em out :
  file_lines lines ->
  process_gcode lines nominal em = Return out ->
  file_lines out /\ readlines (writelines out) = out.
Proof.
  intros HF H. pose proof (process_gcode_file_lines _ _ _ _ HF H) as Hf.
  split; [exact Hf|apply readlines_writelines, Hf].
Qed.

Lemma output_keeps_line_structure_witness :
  let out := [";TYPE:Perimeter" ++ nl;
              "G1 Z0.030 ; Shifted Z for block #1" ++ nl;
              "G1 X1 Y1 E1.00000 ; Adjusted E for layer settings, block #1" ++ nl] in
  file_lines out /\ readlines (writelines out) = out.
Proof.
  cbv zeta.
  apply (output_keeps_line_structure [";TYPE:Perimeter" ++ nl; "G1 X1 Y1 E1"]
           (literal "0.2") (literal "1")).
  - split.
    + exists ";TYPE:Perimeter". split; reflexivity.
    + right. split; [discriminate|reflexivity].
  - vm_compute. reflexivity.
Defined.

Lemma process_lines_cr_free nominal tl lines : forall st st',
  Forall (fun l => cr_free l = true) lines ->
  process_lines nominal tl st lines = Return st' ->
  exists added,
    modified_lines st' = (modified_lines st ++ added)%list /\
    Forall (fun l => cr_free l = true) added.
Proof.
  induction lines as [|line rest IH]; intros st st' HF H.
  - injection H as <-. exists []. rewrite app_nil_r. auto.
  - inversion HF as [|? ? Hline Hrest]; subst. cbn [process_lines] in H.
    destruct (process_line nominal tl st line) as [st1|] eqn:E; cbn [bind] in H;
      [|discriminate].
    destruct (process_line_added _ _ _ _ _ E) as (a1 & Hm1 & Hshape).
    destruct (IH _ _ Hrest H) as (a2 & Hm2 & Hf2).
    exists (a1 ++ a2)%list. rewrite Hm2, Hm1, <- app_assoc.
    split; [reflexivity|]. apply Forall_app. split; [|exact Hf2].
    destruct Hshape as [-> | (zl & line' & -> & (zb & -> & Hzb) & Hl')];
      [repeat constructor; exact Hline|].
    constructor.
    + unfold cr_free. rewrite lacks_app, (Hzb "013"%char (or_intror eq_refl)).
      reflexivity.
    + constructor; [|constructor].
      destruct Hl' as [-> | (body & -> & _ & Hb)]; [exact Hline|].
      unfold cr_free in *. rewrite lacks_app, (Hb Hline). reflexivity.
Qed.

Lemma process_gcode_cr_free lines nominal em out :
  Forall (fun l => cr_free l = true) lines ->
  process_gcode lines nominal em = Return out ->
  Forall (fun l => cr_free l = true) out.
Proof.
  intros HF. unfold process_gcode.
  destruct (process_lines nominal (count_layers lines) initial lines) as [st|] eqn:E;
    cbn [bind]; [|discriminate].
  intros [= <-].
  destruct (process_lines_cr_free _ _ _ _ _ HF E) as (added & Hm & Hf).
  rewrite Hm. exact Hf.
Qed.

(** X11: the rewriter writes no carriage return: if no input line has a
    ["\r"], no output line has one. *)
Theorem no_carriage_return_written lines nominal em out :
  Forall (fun l => cr_free l = true) lines ->
  process_gcode lines nominal em = Return out ->
  Forall (fun l => cr_free l = true) out.
Proof. apply process_gcode_cr_free. Qed.

Lemma no_carriage_return_written_witness :
  Forall (fun l => cr_free l = true)
    [";TYPE:Perimeter" ++ nl;
     "G1 Z0.030 ; Shifted Z for block #1" ++ nl;
     "G1 X1 Y1 E1.00000 ; Adjusted E for layer settings, block #1" ++ nl].
Proof.
  apply (no_carriage_return_written [";TYPE:Perimeter" ++ nl; "G1 X1 Y1 E1" ++ nl]
           (literal "0.2") (literal "1")).
  - repeat constructor.
  - vm_compute. reflexivity.
Defined.

(** ** From file to file *)

Lemma universal_newlines_cr_free s :
  cr_free (universal_newlines s) = true /\
  forall c, cr_free (universal_newlines (String c s)) = true.
Proof.
  unfold cr_free. induction s as [|a s [IH1 IH2]].
  - split; [reflexivity|]. intros c. cbn [universal_newlines].
    destruct (Ascii.eqb c "013") eqn:Hc; [reflexivity|].
    cbn [lacks]. now rewrite Hc.
  - split; [apply IH2|]. intros c.
    change (universal_newlines (String c (String a s))) with
      (if Ascii.eqb c "013" then
         String "010" (if Ascii.eqb a "010" then universal_newlines s
                       else universal_newlines (String a s))
       else String c (universal_newlines (String a s))).
    destruct (Ascii.eqb c "013") eqn:Hc.
    + cbn [lacks]. change (negb (Ascii.eqb "010" "013")) with true. cbn [andb].
      destruct (Ascii.eqb a "010"); [exact IH1|apply IH2].
    + cbn [lacks]. rewrite Hc. cbn [negb andb]. apply IH2.
Qed.

Lemma universal_newlines_id s : cr_free s = true -> universal_newlines s = s.
Proof.
  unfold cr_free. induction s as [|c s IH]; [reflexivity|]. intros H.
  cbn [lacks] in H. apply andb_true_iff in H. destruct H as [Hc Hs].
  apply negb_true_iff in Hc. cbn [universal_newlines]. rewrite Hc.
  now rewrite (IH Hs).
Qed.

Lemma readlines_lacks c0 s :
  lacks c0 s = true -> Forall (fun l => lacks c0 l = true) (readlines s).
Proof.
  induction s as [|c s IH]; [constructor|]. intros H.
  cbn [lacks] in H. apply andb_true_iff in H. destruct H as [Hc Hs].
  specialize (IH Hs). cbn [readlines].
  destruct (Ascii.eqb c "010").
  - constructor; [cbn [lacks]; now rewrite Hc|exact IH].
  - destruct (readlines s) as [|l ls].
    + constructor; [cbn [lacks]; now rewrite Hc|constructor].
    + inversion IH as [|? ? Hl Hls]; subst.
      constructor; [cbn [lacks]; now rewrite Hc, Hl|exact Hls].
Qed.

Lemma writelines_lacks c0 lines :
  Forall (fun l => lacks c0 l = true) lines -> lacks c0 (writelines lines) = true.
Proof.
  induction 1 as [|l lines Hl _ IH]; [reflexivity|].
  change (writelines (l :: lines)) with (l ++ writelines lines).
  now rewrite lacks_app, Hl, IH.
Qed.

(** X12: the rewritten file holds the lines that were written and no others.
    When [process_gcode] returns, the new text of the file is the output
    lines one after the other, and a later [readlines] of the file, newline
    translation included, gives exactly these lines back: an inserted line
    never runs into its neighbours. *)
Theorem rewritten_file_reads_back text nominal em text' :
  process_gcode_file text nominal em = Return text' ->
  exists out,
    process_gcode (readlines (universal_newlines text)) nominal em = Return out /\
    text' = writelines out /\
    readlines (universal_newlines text') = out.
Proof.
  unfold process_gcode_file.
  destruct (process_gcode (readlines (universal_newlines text)) nominal em)
    as [out|] eqn:E; cbn [bind]; [|discriminate].
  intros [= <-]. exists out. split; [reflexivity|]. split; [reflexivity|].
  assert (Hcr : Forall (fun l => cr_free l = true) out).
  { apply (process_gcode_cr_free _ _ _ _ (readlines_lacks _ _
             (proj1 (universal_newlines_cr_free text))) E). }
  rewrite universal_newlines_id by (apply writelines_lacks, Hcr).
  apply readlines_writelines.
  apply (process_gcode_file_lines _ _ _ _ (readlines_file_lines _) E).
Qed.

Lemma rewritten_file_reads_back_witness :
  let text := ";TYPE:Perimeter" ++ String "013" nl ++ "G1 X1 Y1 E1" ++ String "013" nl in
  let text' :=
    ";TYPE:Perimeter" ++ nl ++ "G1 Z0.030 ; Shifted Z for block #1" ++ nl
    ++ "G1 X1 Y1 E1.00000 ; Adjusted E for layer settings, block #1" ++ nl in
  exists out,
    process_gcode (readlines (universal_newlines text)) (literal "0.2") (literal "1")
    = Return out /\
    text' = writelines out /\
    readlines (universal_newlines text') = out.
Proof.
  cbv zeta.
  apply (rewritten_file_reads_back
           (";TYPE:Perimeter" ++ String "013" nl ++ "G1 X1 Y1 E1" ++ String "013" nl)
           (literal "0.2") (literal "1")).
  vm_compute. reflexivity.
Defined.










(** ** Numbers written and read again *)

Lemma digit_not_point c : is_digit c = true -> Ascii.eqb c "." = false.
Proof.
  intros H. destruct (Ascii.eqb c ".") eqn:E; [|reflexivity].
  apply Ascii.eqb_eq in E. subst c. discriminate H.
Qed.

Lemma digit_not_minus c : is_digit c = true -> Ascii.eqb c "-" = false.
Proof.
  intros H. destruct (Ascii.eqb c "-") eqn:E; [|reflexivity].
  apply Ascii.eqb_eq in E. subst c. discriminate H.
Qed.

Lemma scan_dec_digits a rest : forall point m k nd,
  all_chars is_digit a = true ->
  exists m' k',
    scan_dec (a ++ rest) point m k nd =
    scan_dec rest point m' k' (nd + Z.of_nat (String.length a)).
Proof.
  induction a as [|c a IH]; intros point m k nd H.
  - exists m, k. cbn [String.append String.length Z.of_nat]. now rewrite Z.add_0_r.
  - cbn [all_chars] in H. apply andb_true_iff in H. destruct H as [Hc Ha].
    cbn [String.append scan_dec]. rewrite (digit_not_point c Hc).
    unfold is_digit in Hc. destruct (digit_val c) as [d|]; [|discriminate].
    destruct (IH point (10 * m + d) (if point then k + 1 else k) (nd + 1) Ha)
      as (m' & k' & ->).
    exists m', k'. f_equal. cbn [String.length]. lia.
Qed.

Lemma string_length_pos (s : string) : s <> "" -> (0 < String.length s)%nat.
Proof. destruct s; [congruence|cbn; lia]. Qed.

Lemma of_string_fixed_digits neg d n :
  exists v, of_string (sign_string neg ++ fixed_digits d n) = Some v.
Proof.
  unfold fixed_digits.
  destruct (dec_string_digits (n / 10 ^ Z.of_nat d)) as [Ha Hane].
  destruct (dec_string_digits (n mod 10 ^ Z.of_nat d)) as [Hb _].
  set (a := dec_string (n / 10 ^ Z.of_nat d)) in *.
  set (b := dec_string (n mod 10 ^ Z.of_nat d)) in *.
  set (tail := match d with O => "" | S _ => "." ++ zeros (d - String.length b) ++ b end).
  assert (Hscan : exists m k nd,
             scan_dec (a ++ tail) false 0 0 0 = Some (m, k, nd) /\ 0 < nd).
  { destruct (scan_dec_digits a tail false 0 0 0 Ha) as (m1 & k1 & ->).
    pose proof (string_length_pos a Hane) as Hlen.
    unfold tail. destruct d as [|d].
    - cbn [scan_dec]. do 3 eexists. split; [reflexivity|lia].
    - change ("." ++ ?x) with (String "." x). cbn [scan_dec].
      change (Ascii.eqb "." ".") with true. cbv iota.
      rewrite <- (string_app_nil_r (zeros _ ++ b)).
      destruct (scan_dec_digits (zeros (S d - String.length b) ++ b) "" true m1 k1
                  (0 + Z.of_nat (String.length a))) as (m2 & k2 & ->).
      { rewrite all_chars_app, zeros_digits, Hb. reflexivity. }
      cbn [scan_dec]. do 3 eexists. split; [reflexivity|lia]. }
  destruct Hscan as (m & k & nd & Hs & Hnd).
  assert (Hbody : exists v, of_string (a ++ tail) = Some v).
  { unfold of_string. destruct a as [|c a'] eqn:Ea; [congruence|].
    cbn [all_chars] in Ha. apply andb_true_iff in Ha. destruct Ha as [Hc _].
    cbn [String.append]. rewrite (digit_not_minus c Hc).
    cbn [String.append] in Hs. rewrite Hs.
    destruct (nd =? 0) eqn:E; [apply Z.eqb_eq in E; lia|eauto]. }
  destruct neg; [|exact Hbody].
  change (sign_string true ++ a ++ tail) with (String "-" (a ++ tail)).
  unfold of_string. change (Ascii.eqb "-" "-") with true. cbv iota.
  rewrite Hs. destruct (nd =? 0) eqn:E; [apply Z.eqb_eq in E; lia|eauto].
Qed.

(** [float] accepts every finite number that the rewriter formats. *)
Lemma of_string_format_f d x :
  is_finite x = true -> exists v, of_string (format_f d x) = Some v.
Proof.
  destruct x as [s|s| |s m e]; try discriminate; intros _; unfold format_f;
    apply of_string_fixed_digits.
Qed.

Lemma num_run_all s : all_chars is_num_char s = true -> num_run s = s.
Proof.
  induction s as [|c s IH]; [reflexivity|]. cbn. intros H.
  apply andb_true_iff in H. destruct H as [Hc Hs]. now rewrite Hc, (IH Hs).
Qed.

Lemma format_f_finite_nonempty d x : is_finite x = true -> format_f d x <> "".
Proof.
  intros H E. destruct (of_string_format_f d x H) as [v Hv].
  rewrite E in Hv. discriminate Hv.
Qed.

Lemma starts_num_app f rest :
  f <> "" -> all_chars is_num_char f = true -> starts_num (f ++ rest) = true.
Proof.
  destruct f as [|c f]; [congruence|]. intros _ H. cbn in *.
  apply andb_true_iff in H. tauto.
Qed.

Lemma prefix_app_same p x : String.prefix p (p ++ x) = true.
Proof.
  induction p as [|a p IH]; [destruct x; reflexivity|].
  cbn. destruct (ascii_dec a a); [exact IH|congruence].
Qed.

(** X14: an inserted Z line is itself a layer-change line for a later run.
    When the height it carries is finite, the line starts with "G1 Z", its Z
    token is the formatted height, [float] accepts it, and the loop handles
    the line as a layer change to that height: this is how a second run
    shifts again (C9). *)
Theorem inserted_line_is_layer_change z_shift ls z n :
  let height := if Z.odd n then add z (mul z_shift (layer_height ls)) else z in
  let zl := z_line z_shift ls z n in
  is_finite height = true ->
  startswith zl "G1 Z" = true /\
  re_search "Z" zl = Some (format_f 3 height) /\
  exists v,
    of_string (format_f 3 height) = Some v /\
    forall nominal tl st,
      process_line nominal tl st zl =
      (do q <- div v nominal ;; do l <- trunc q ;;
       Return (append (set_layer st v l) zl)).
Proof.
  intros height zl Hfin.
  assert (Hzl : zl = "G1 Z" ++ format_f 3 height
                     ++ (if Z.odd n then " ; Shifted Z for block #"
                         else " ; Reset Z for block #") ++ str_int n ++ nl)
    by apply z_line_parity.
  pose proof (format_f_finite_chars 3 height Hfin) as Hchars.
  pose proof (format_f_finite_nonempty 3 height Hfin) as Hne.
  assert (Hstart : startswith zl "G1 Z" = true) by (rewrite Hzl; apply prefix_app_same).
  assert (Hsearch : re_search "Z" zl = Some (format_f 3 height)).
  { rewrite Hzl. set (rest := (if Z.odd n then _ else _) ++ _).
    change ("G1 Z" ++ ?x) with (String "G" (String "1" (String " " (String "Z" x)))).
    cbn [re_search]. change (Ascii.eqb "G" "Z") with false.
    change (Ascii.eqb "1" "Z") with false. change (Ascii.eqb " " "Z") with false.
    change (Ascii.eqb "Z" "Z") with true. cbn [andb].
    rewrite (starts_num_app _ rest Hne Hchars).
    rewrite num_run_app; [reflexivity|apply num_run_all, Hchars|].
    unfold rest. destruct (Z.odd n); reflexivity. }
  destruct (of_string_format_f 3 height Hfin) as [v Hv].
  split; [exact Hstart|]. split; [exact Hsearch|].
  exists v. split; [exact Hv|]. intros nominal tl st.
  rewrite (process_line_layer _ _ _ _ Hstart). unfold layer_change, float_of.
  rewrite Hsearch, Hv. reflexivity.
Qed.

Lemma inserted_line_is_layer_change_witness :
  let zl := z_line (literal "0.1") (calculate_layer_settings 1 0) (literal "0.2") 1 in
  startswith zl "G1 Z" = true /\
  re_search "Z" zl = Some "0.215" /\
  exists v,
    of_string "0.215" = Some v /\
    forall nominal tl st,
      process_line nominal tl st zl =
      (do q <- div v nominal ;; do l <- trunc q ;;
       Return (append (set_layer st v l) zl)).
Proof.
  cbv zeta.
  apply (inserted_line_is_layer_change (literal "0.1") (calculate_layer_settings 1 0)
           (literal "0.2") 1).
  reflexivity.
Defined.

Lemma space_not_num c : is_space c = true -> is_num_char c = false.
Proof.
  destruct c as [[] [] [] [] [] [] [] []]; intros H; try reflexivity;
    discriminate H.
Qed.

Lemma re_sub_from_skip_starts k repl s :
  starts_num repl = false -> repl <> "" ->
  starts_num (re_sub_from k repl true s) = false.
Proof.
  intros Hr Hne. induction s as [|c s IH]; [reflexivity|].
  cbn [re_sub_from andb]. destruct (is_num_char c) eqn:Hc; [exact IH|].
  destruct (Ascii.eqb c k && starts_num s).
  - destruct repl; [congruence|exact Hr].
  - exact Hc.
Qed.

Lemma re_sub_from_starts k repl s :
  starts_num repl = false -> repl <> "" ->
  starts_num s = false -> starts_num (re_sub_from k repl false s) = false.
Proof.
  intros Hr Hne Hs. destruct s as [|c s]; [reflexivity|].
  cbn [re_sub_from andb]. destruct (Ascii.eqb c k && starts_num s).
  - destruct repl; [congruence|exact Hr].
  - exact Hs.
Qed.

Lemma num_run_app_stop t rest :
  starts_num rest = false -> num_run (t ++ rest) = num_run t.
Proof.
  intros Hr. induction t as [|c t IH].
  - destruct rest as [|c r]; [reflexivity|]. cbn in *. now rewrite Hr.
  - cbn. destruct (is_num_char c); [now rewrite IH|reflexivity].
Qed.

Lemma starts_num_app_stop t rest :
  starts_num rest = false -> starts_num (t ++ rest) = starts_num t.
Proof. intros Hr. destruct t; [exact Hr|reflexivity]. Qed.

(** After the substitution the first match is the new token. *)
Lemma re_search_re_sub k f s tok :
  is_num_char k = false ->
  f <> "" -> all_chars is_num_char f = true ->
  re_search k s = Some tok ->
  re_search k (re_sub_from k (String k f) false s) = Some f.
Proof.
  intros Hk Hne Hf. induction s as [|c s IH]; [discriminate|].
  cbn [re_search re_sub_from andb].
  destruct (Ascii.eqb c k && starts_num s) eqn:E.
  - intros _. cbn [String.append re_search]. rewrite Ascii.eqb_refl.
    rewrite (starts_num_app _ _ Hne Hf). cbn [andb].
    rewrite num_run_app_stop, (num_run_all _ Hf); [reflexivity|].
    apply re_sub_from_skip_starts; [exact Hk|discriminate].
  - intros H. cbn [re_search].
    assert (Ascii.eqb c k && starts_num (re_sub_from k (String k f) false s) = false)
      as ->.
    { destruct (Ascii.eqb c k); [|reflexivity]. cbn [andb] in *.
      apply re_sub_from_starts; [exact Hk|discriminate|exact E]. }
    apply IH, H.
Qed.

Lemma rstrip_starts_num t : starts_num (rstrip t) = starts_num t.
Proof.
  destruct t as [|c t]; [reflexivity|]. cbn [rstrip starts_num].
  destruct (rstrip t); [|reflexivity].
  destruct (is_space c) eqn:Hs; [|reflexivity].
  cbn. symmetry. apply space_not_num, Hs.
Qed.

Lemma rstrip_num_run t : num_run (rstrip t) = num_run t.
Proof.
  induction t as [|c t IH]; [reflexivity|]. cbn [rstrip num_run].
  destruct (is_num_char c) eqn:Hc.
  - destruct (rstrip t) as [|c' r] eqn:E.
    + destruct (is_space c) eqn:Hs;
        [rewrite (space_not_num _ Hs) in Hc; discriminate|].
      cbn [num_run]. rewrite Hc, <- IH. reflexivity.
    + cbn [num_run] in *. rewrite Hc, IH. reflexivity.
  - destruct (rstrip t) as [|c' r].
    + destruct (is_space c); [reflexivity|]. cbn [num_run]. now rewrite Hc.
    + cbn [num_run]. now rewrite Hc.
Qed.

Lemma rstrip_re_search k t : re_search k (rstrip t) = re_search k t.
Proof.
  induction t as [|c t IH]; [reflexivity|]. cbn [rstrip re_search].
  rewrite <- IH, <- (rstrip_starts_num t), <- (rstrip_num_run t).
  destruct (rstrip t) as [|c' r].
  - destruct (is_space c); cbn; rewrite ?andb_false_r; reflexivity.
  - reflexivity.
Qed.

Lemma lstrip_re_search k t :
  is_space k = false -> re_search k (lstrip t) = re_search k t.
Proof.
  intros Hk. induction t as [|c t IH]; [reflexivity|]. cbn [lstrip re_search].
  destruct (is_space c) eqn:Hs; [|reflexivity].
  assert (Ascii.eqb c k = false) as ->.
  { apply Ascii.eqb_neq. intros ->. congruence. }
  exact IH.
Qed.

Lemma re_search_app_stop k t rest f :
  starts_num rest = false ->
  re_search k t = Some f -> re_search k (t ++ rest) = Some f.
Proof.
  intros Hr. induction t as [|c t IH]; [discriminate|].
  cbn [String.append re_search].
  rewrite (starts_num_app_stop t rest Hr), (num_run_app_stop t rest Hr).
  destruct (Ascii.eqb c k && starts_num t); [auto|exact IH].
Qed.

(** X15: a rewritten motion line carries its new value where a reader looks
    for it. When the rescaled value is finite, the E token that the pattern
    finds first in the new line is the value to 5 decimals, and [float]
    accepts it, so a later run finds a number there. *)
Theorem rewritten_line_e_token ls n line tok e line' :
  let new_e := mul e (SFdiv prec emax (line_width ls) (literal "0.4")) in
  re_search "E" line = Some tok ->
  of_string tok = Some e ->
  is_finite new_e = true ->
  adjust_e ls n line = Return line' ->
  re_search "E" line' = Some (format_f 5 new_e) /\
  exists v, of_string (format_f 5 new_e) = Some v.
Proof.
  intros new_e Hs Hf Hfin H.
  rewrite (adjust_e_number _ _ _ _ _ Hs Hf) in H. injection H as <-.
  fold MIN_LINE_WIDTH. rewrite <- literal_0_4. fold new_e.
  split; [|apply of_string_format_f, Hfin].
  apply re_search_app_stop.
  - reflexivity.
  - unfold strip. rewrite rstrip_re_search, lstrip_re_search by reflexivity.
    apply (re_search_re_sub "E" _ line tok); try reflexivity.
    + apply format_f_finite_nonempty, Hfin.
    + apply format_f_finite_chars, Hfin.
    + exact Hs.
Qed.

Lemma rewritten_line_e_token_witness :
  re_search "E" ("G1 X1 Y1 E1.54320 ; Adjusted E for layer settings, block #1" ++ nl)
  = Some (format_f 5 (mul (literal "1.23456")
                          (SFdiv prec emax (line_width (calculate_layer_settings 1 0))
                                 (literal "0.4")))) /\
  exists v,
    of_string (format_f 5 (mul (literal "1.23456")
                               (SFdiv prec emax
                                      (line_width (calculate_layer_settings 1 0))
                                      (literal "0.4")))) = Some v.
Proof.
  apply (rewritten_line_e_token (calculate_layer_settings 1 0) 1
           ("G1 X1 Y1 E1.23456" ++ nl) "1.23456" (literal "1.23456")).
  - reflexivity.
  - reflexivity.
  - vm_compute. reflexivity.
  - vm_compute. reflexivity.
Defined.

(** ** Malformed E tokens *)

Lemma adjust_e_raises ls n line :
  e_token_ok line = false -> adjust_e ls n line = Raise ValueError.
Proof.
  unfold e_token_ok, adjust_e, float_of.
  destruct (re_search "E" line) as [tok|]; [|discriminate].
  destruct (of_string tok); [discriminate|reflexivity].
Qed.

(** X16: in internal context a malformed E token is fatal wherever it
    stands. If the lines before it are processed without error and leave the
    scan in internal context, a motion line whose E token is not a number
    makes the whole run raise [ValueError], whatever follows; the same line
    under an outer wall or infill is copied (X5). *)
Theorem bad_e_token_aborts nominal em tl pre line post st :
  process_lines nominal tl initial pre = Return st ->
  startswith line "G1 Z" = false ->
  motion (detect_type st line) line = true ->
  e_token_ok line = false ->
  process_gcode (pre ++ line :: post) nominal em = Raise ValueError.
Proof.
  intros Hpre HZ Hm Hbad. unfold process_gcode.
  rewrite (process_lines_total_layers nominal _ tl), process_lines_app, Hpre.
  cbn [bind process_lines]. rewrite (process_line_other _ _ _ _ HZ).
  destruct (process_lines_step _ _ _ _ _ Hpre) as (Hi & _).
  unfold perimeter_block. rewrite Hm.
  rewrite (detect_type_inside st line (Hi eq_refl)). cbn [negb].
  rewrite (adjust_e_raises _ _ _ Hbad). reflexivity.
Qed.

Lemma bad_e_token_aborts_witness :
  process_gcode ([";TYPE:Inner wall" ++ nl] ++ ("G1 X1 Y1 E1.2.3" ++ nl)
                 :: ["G1 X2 Y2 E1" ++ nl])
                (literal "0.2") (literal "1") = Raise ValueError.
Proof.
  apply (bad_e_token_aborts (literal "0.2") (literal "1") 0
           [";TYPE:Inner wall" ++ nl] ("G1 X1 Y1 E1.2.3" ++ nl)
           ["G1 X2 Y2 E1" ++ nl] after_inner_wall); reflexivity.
Defined.

(** ** Alternating layers *)

(** X17: the settings alternate from one layer index to the next, below zero
    as well: two successive indices never get the same settings, and the
    settings come back after two layers. *)
Theorem layer_settings_alternate (n t t' : Z) :
  calculate_layer_settings (n + 1) t <> calculate_layer_settings n t' /\
  calculate_layer_settings (n + 2) t = calculate_layer_settings n t'.
Proof.
  unfold calculate_layer_settings. split.
  - rewrite <- !Zeven_mod, Z.even_add. change (Z.even 1) with false.
    destruct (Z.even n); cbn; discriminate.
  - rewrite <- !Zeven_mod, Z.even_add. change (Z.even 2) with true.
    destruct (Z.even n); reflexivity.
Qed.
